(** * The build controller of openshift/origin (pkg/build/controller.go)

    A shallow embedding of the reconciliation loop [watchBuilds] and of the
    state machine [synchronize], followed by the properties of the build
    lifecycle that the specification states about them.

    Conventions of the embedding:
    - Go's [int] and [time.Duration] are unbounded integers ([Z]); none of
      the comparisons below depends on wrap-around.
    - a Go call returning [(T, error)] is a [result T];
    - [error] is an interface: it is a type class here;
    - the two clients held by the controller are interfaces over an external
      cluster; their methods are state transformers of an abstract [World],
      and every call is recorded in a trace of [Call]s;
    - glog output is not part of the model. *)

From Stdlib Require Import ZArith QArith Qround String Ascii List Lia.
From stdpp Require Import base decidable option list gmap strings fin_maps.

Local Open Scope Z_scope.

(** ** Values of the Go runtime *)

(** [time.Time] as nanoseconds since the epoch, [time.Duration] as a signed
    number of nanoseconds. *)
Definition Time : Type := Z.
Definition Duration : Type := Z.

Definition Second : Duration := 1000000000.

(** [time.Since(t)] is [time.Now().Sub(t)]; the current instant is passed in. *)
Definition Since (now t : Time) : Duration := now - t.

(** [Duration.Seconds()]: the duration as a fractional number of seconds.
    Go returns a float64; the value is kept exact here, as a rational. *)
Definition Seconds (d : Duration) : Q := Qmake d 1000000000.

(** The conversion [int(x)] of a floating-point number: the fraction is
    discarded, rounding toward zero. *)
Definition int (x : Q) : Z := Z.quot (Qnum x) (Z.pos (Qden x)).

(** [strings.Index(s, substr)]: the index of the first instance of [substr]
    in [s], or -1 when there is none. *)
Definition Index (s substr : string) : Z :=
  match String.index 0 substr s with
  | Some i => Z.of_nat i
  | None => -1
  end.

(** The [error] interface.  [Error] is its one method; [GoSyntax] is the
    rendering that fmt gives the value under the verb [%#v]; [Errorf] is
    [fmt.Errorf] applied to a format whose verbs have been substituted. *)
Class GoError (error : Type) := {
  Error : error -> string;
  GoSyntax : error -> string;
  Errorf : string -> error;
  Error_Errorf : forall msg, Error (Errorf msg) = msg
}.

(** [time.Now()]: the instant shown by the clock of the machine, which is
    part of the world the controller runs in. *)
Class Clock (World : Type) := Now : World -> Time.

(** The outcome of a call that returns [(T, error)]: the value is only
    looked at when the error is nil. *)
Inductive result (error A : Type) : Type :=
| Ok (a : A)
| Err (err : error).
Arguments Ok {error A} a.
Arguments Err {error A} err.

(** ** The API objects the controller reads and writes *)

Definition BuildType : Type := string.

(** Modelled from the spec: the declaration of [api.BuildStatus] is not among
    the sources.  It is a string type with the six named statuses
    New, Pending, Running, Complete, Failed and Error; any other value of the
    type is [BuildStatusOther]. *)
Inductive BuildStatus : Type :=
| BuildNew
| BuildPending
| BuildRunning
| BuildComplete
| BuildFailed
| BuildError
| BuildStatusOther (raw : string).

#[global] Instance BuildStatus_eq_dec : EqDecision BuildStatus.
Proof. solve_decision. Defined.

(** Modelled from the spec: the declaration of [api.BuildInput] is not among
    the sources.  It is the type tag of the build and its type-specific
    parameters; the field names are those the strategy test reads. *)
Record BuildInput : Type := {
  Type_ : BuildType;
  SourceURI : string;
  SourceRef : string;
  ImageTag : string;
  Registry : string;
  BuilderImage : string
}.

(** Modelled from the spec: the declaration of [api.Build] is not among the
    sources.  It has an id, a creation timestamp (both in the embedded
    JSONBase), free-form labels, the input, the status and the id of the
    execution unit, under the names the controller uses. *)
Record Build : Type := {
  ID : string;
  CreationTimestamp : Time;
  Labels : gmap string string;
  Input : BuildInput;
  Status : BuildStatus;
  PodID : string
}.

Definition set_PodID (podID : string) (build : Build) : Build :=
  {| ID := ID build; CreationTimestamp := CreationTimestamp build;
     Labels := Labels build; Input := Input build; Status := Status build;
     PodID := podID |}.

Definition set_Status (status : BuildStatus) (build : Build) : Build :=
  {| ID := ID build; CreationTimestamp := CreationTimestamp build;
     Labels := Labels build; Input := Input build; Status := status;
     PodID := PodID build |}.

(** The pod of the Kubernetes API, declared outside the sources: what is
    kept of it is what [synchronize] and the strategy test read, namely the
    id, the status of the pod, and per container the termination record,
    which may be absent, with its exit code. *)
Inductive PodStatus : Type :=
| PodWaiting
| PodRunning
| PodTerminated.

#[global] Instance PodStatus_eq_dec : EqDecision PodStatus.
Proof. solve_decision. Defined.

Record ContainerStateTerminated : Type := {
  ExitCode : Z
}.

(** [Termination] is a pointer: [None] is nil. *)
Record ContainerState : Type := {
  Termination : option ContainerStateTerminated
}.

Record ContainerStatus : Type := {
  State : ContainerState
}.

(** [kapi.PodInfo] is [map[string]ContainerStatus]. *)
Record PodState : Type := {
  PodState_Status : PodStatus;
  Info : gmap string ContainerStatus
}.

Record Pod : Type := {
  Pod_ID : string;
  CurrentState : PodState
}.

(** ** The external cluster and the calls made on it *)

(** One entry per method call on a client, in the order of the calls. *)
Inductive Call : Type :=
| ListBuildsCall
| UpdateBuildCall (build : Build)
| CreatePodCall (pod : Pod)
| GetPodCall (id : string).

Section Controller.

Context {error : Type} `{GoError error}.
Context {World : Type} `{Clock World}.

(** A computation that talks to the cluster: from the state of the world
    before it to its value, the state after it and the calls it made. *)
Definition M (A : Type) : Type := World -> A * World * list Call.

Definition ret {A} (a : A) : M A := fun w => (a, w, []).

Definition bind {A B} (c : M A) (k : A -> M B) : M B :=
  fun w =>
    let '(a, w1, calls1) := c w in
    let '(b, w2, calls2) := k a w1 in
    (b, w2, calls1 ++ calls2).

Definition invoke {A} (call : Call) (method : World -> A * World) : M A :=
  fun w => let '(a, w') := method w in (a, w', [call]).

Definition value {A} (r : A * World * list Call) : A := r.1.1.
Definition world_after {A} (r : A * World * list Call) : World := r.1.2.
Definition calls {A} (r : A * World * list Call) : list Call := r.2.

Notation "'let!' x ':=' c 'in' k" := (bind c (fun x => k))
  (at level 10, x name, c at level 100, k at level 200).

(** [BuildJobStrategy]: creates the pod definition that executes a build.
    The method receives the build by pointer; it is taken to read it only. *)
Record BuildJobStrategy : Type := {
  CreateBuildPod : Build -> result error Pod
}.

(** [osclient.Interface], the build registry. *)
Record osclient_Interface : Type := {
  ListBuilds : World -> result error (list Build) * World;
  UpdateBuild : Build -> World -> result error Build * World
}.

(** [kubeclient.Interface], the pod client. *)
Record kubeclient_Interface : Type := {
  CreatePod : Pod -> World -> result error Pod * World;
  GetPod : string -> World -> result error Pod * World
}.

(** [BuildController] *)
Record BuildController : Type := {
  osClient : osclient_Interface;
  kubeClient : kubeclient_Interface;
  buildStrategies : gmap BuildType BuildJobStrategy;
  timeout : Z
}.

(** ** The controller *)

(** [hasTimeoutElapsed(build, timeout)], given the instant [time.Since]
    reads from the clock. *)
Definition hasTimeoutElapsed (now : Time) (build : Build) (timeout : Z) : bool :=
  let timestamp := CreationTimestamp build in
  let elapsed := Since now timestamp in
  bool_decide (int (Seconds elapsed) > timeout).

(** The condition under which the loop over [pod.CurrentState.Info] assigns
    [BuildFailed]. *)
Definition exitedNonZero (info : ContainerStatus) : bool :=
  match Termination (State info) with
  | Some termination => bool_decide (ExitCode termination <> 0)
  | None => false
  end.

(** The loop over the containers of a terminated pod, from
    [nextStatus = api.BuildComplete].  Go visits the entries of a map in no
    fixed order; [checkExitCodes_cases] below shows that the order does not
    matter here. *)
Definition checkExitCodes (info : gmap string ContainerStatus) : BuildStatus :=
  map_fold
    (fun _ info nextStatus => if exitedNonZero info then BuildFailed else nextStatus)
    BuildComplete info.

(** [synchronize]: the next status of a build given its current state and the
    state of its pod.  The build is passed by pointer and the [BuildNew]
    branch writes its [PodID], so the build is returned along with the
    status and the error. *)
Definition synchronize (bc : BuildController) (build : Build)
  : M (Build * BuildStatus * option error) :=
  match Status build with
  | BuildNew =>
      let build :=
        set_PodID ("build-" +:+ Type_ (Input build) +:+ "-" +:+ ID build) build in
      ret (build, BuildPending, None)
  | BuildPending =>
      match buildStrategies bc !! Type_ (Input build) with
      | None =>
          ret (build, BuildError,
               Some (Errorf ("No build type for " +:+ Type_ (Input build))))
      | Some buildStrategy =>
          match CreateBuildPod buildStrategy build with
          | Err err => ret (build, BuildFailed, Some err)
          | Ok podSpec =>
              let! created := invoke (CreatePodCall podSpec)
                                     (CreatePod (kubeClient bc) podSpec) in
              match created with
              | Err err =>
                  if bool_decide (Index (Error err) "already exists" <> -1)
                  then ret (build, Status build, Some err)
                  else ret (build, BuildFailed, Some err)
              | Ok _ => ret (build, BuildRunning, None)
              end
          end
      end
  | BuildRunning =>
      fun w =>
      if hasTimeoutElapsed (Now w) build (timeout bc)
      then ret (build, BuildFailed, Some (Errorf "Build timed out")) w
      else
        (let! fetched := invoke (GetPodCall (PodID build))
                                (GetPod (kubeClient bc) (PodID build)) in
         match fetched with
         | Err err =>
             ret (build, Status build,
                  Some (Errorf ("Error retrieving pod for build ID " +:+ ID build
                                +:+ ": " +:+ GoSyntax err)))
         | Ok pod =>
             if bool_decide (PodState_Status (CurrentState pod) <> PodTerminated)
             then ret (build, Status build, None)
             else ret (build, checkExitCodes (Info (CurrentState pod)), None)
         end) w
  | BuildComplete | BuildFailed | BuildError =>
      ret (build, Status build, None)
  | BuildStatusOther raw =>
      ret (build, BuildError, Some (Errorf ("Invalid build status: " +:+ raw)))
  end.

(** The body of the loop over [builds.Items] in [watchBuilds]. *)
Definition syncBuild (bc : BuildController) (build : Build) : M unit :=
  let! synced := synchronize bc build in
  let '(build, nextStatus, _) := synced in
  if bool_decide (nextStatus <> Status build)
  then
    let build := set_Status nextStatus build in
    let! ignored := invoke (UpdateBuildCall build) (UpdateBuild (osClient bc) build) in
    ret tt
  else ret tt.

Fixpoint syncBuilds (bc : BuildController) (items : list Build) : M unit :=
  match items with
  | [] => ret tt
  | build :: items => let! ignored := syncBuild bc build in syncBuilds bc items
  end.

(** What [watchBuilds] does when [syncTime] delivers: [false] when it
    returns (the list call failed), [true] when it goes back to waiting. *)
Definition tick (bc : BuildController) : M bool :=
  let! listed := invoke ListBuildsCall (ListBuilds (osClient bc)) in
  match listed with
  | Err _ => ret false
  | Ok builds => let! ignored := syncBuilds bc builds in ret true
  end.

(** [watchBuilds] over the instants delivered by [syncTime]. *)
Fixpoint watchBuilds (bc : BuildController) (syncTime : list Time) : M unit :=
  match syncTime with
  | [] => ret tt
  | _ :: syncTime =>
      let! again := tick bc in
      if again : bool then watchBuilds bc syncTime else ret tt
  end.

End Controller.

Arguments M : clear implicits.
Arguments BuildJobStrategy : clear implicits.
Arguments osclient_Interface : clear implicits.
Arguments kubeclient_Interface : clear implicits.
Arguments BuildController : clear implicits.

(** ** An in-memory cluster

    A registry holding a list of builds and a pod store keyed by pod id, in
    the manner of the fake clients of the tests.  It is the concrete world on
    which the scenarios below are run. *)
Module Fake.

(** An error value: its text and its [%#v] rendering. *)
Record error : Type := {
  text : string;
  rendering : string
}.

#[global] Instance error_GoError : GoError error := {
  Error := text;
  GoSyntax := rendering;
  Errorf msg := {| text := msg; rendering := "&errors.errorString{...}" |};
  Error_Errorf := fun _ => eq_refl
}.

Record World : Type := {
  clock : Time;
  builds : list Build;
  pods : gmap string Pod
}.

#[global] Instance World_Clock : Clock World := clock.

Definition alreadyExists (id : string) : error :=
  {| text := "pod " +:+ id +:+ " already exists";
     rendering := "&errors.StatusError{...}" |}.

Definition notFound (id : string) : error :=
  {| text := "pod " +:+ id +:+ " not found";
     rendering := "&errors.StatusError{...}" |}.

Definition kube : kubeclient_Interface error World := {|
  CreatePod pod w :=
    match pods w !! Pod_ID pod with
    | Some _ => (Err (alreadyExists (Pod_ID pod)), w)
    | None =>
        (Ok pod, {| clock := clock w; builds := builds w;
                    pods := <[Pod_ID pod := pod]> (pods w) |})
    end;
  GetPod id w :=
    match pods w !! id with
    | Some pod => (Ok pod, w)
    | None => (Err (notFound id), w)
    end
|}.

Definition replace (build : Build) (items : list Build) : list Build :=
  map (fun old => if decide (ID old = ID build) then build else old) items.

Definition os : osclient_Interface error World := {|
  ListBuilds w := (Ok (builds w), w);
  UpdateBuild build w :=
    (Ok build, {| clock := clock w; builds := replace build (builds w);
                  pods := pods w |})
|}.

(** A strategy whose pod carries the build's [PodID], as the strategy test
    expects of the STI strategy. *)
Definition strategy : BuildJobStrategy error := {|
  CreateBuildPod build :=
    Ok {| Pod_ID := PodID build;
          CurrentState := {| PodState_Status := PodWaiting; Info := ∅ |} |}
|}.

Definition controller (timeout : Z) : BuildController error World := {|
  osClient := os;
  kubeClient := kube;
  buildStrategies := {[ "T" := strategy ]};
  timeout := timeout
|}.

Definition input (type : BuildType) : BuildInput := {|
  Type_ := type; SourceURI := "http://my.build.com/the/build/Dockerfile";
  SourceRef := "master"; ImageTag := "repository/build";
  Registry := "docker-registry"; BuilderImage := "builder"
|}.

Definition build (id : string) (type : BuildType) (status : BuildStatus)
  (podID : string) : Build := {|
  ID := id; CreationTimestamp := 0; Labels := ∅; Input := input type;
  Status := status; PodID := podID
|}.

Definition exited (code : Z) : ContainerStatus :=
  {| State := {| Termination := Some {| ExitCode := code |} |} |}.

Definition noRecord : ContainerStatus :=
  {| State := {| Termination := None |} |}.

Definition pod (id : string) (status : PodStatus)
  (info : gmap string ContainerStatus) : Pod :=
  {| Pod_ID := id;
     CurrentState := {| PodState_Status := status; Info := info |} |}.

Definition world (now : Time) (items : list Build) (running : list Pod)
  : World :=
  {| clock := now; builds := items;
     pods := list_to_map (map (fun p => (Pod_ID p, p)) running) |}.

(** The cluster reports the pod [id] terminated, with [info] for its
    containers: a step of the world, not of the controller. *)
Definition terminate (id : string) (info : gmap string ContainerStatus)
  (w : World) : World :=
  {| clock := clock w; builds := builds w;
     pods := <[id := pod id PodTerminated info]> (pods w) |}.

(** *** Scenarios *)

Definition seconds (n : Z) : Time := n * Second.

Definition b1_new : Build := build "b1" "T" BuildNew "".
Definition b1_pending : Build := build "b1" "T" BuildPending "build-T-b1".
Definition b1_running : Build := build "b1" "T" BuildRunning "build-T-b1".
Definition b1_complete : Build := build "b1" "T" BuildComplete "build-T-b1".
Definition b2_pending : Build := build "b2" "U" BuildPending "build-U-b2".
Definition b3_failed : Build := build "b3" "T" BuildFailed "build-T-b3".

(** Pods of [b1]: still running; terminated with one container that left
    no termination record; terminated with one success and one failure. *)
Definition runningPod : Pod := pod "build-T-b1" PodRunning ∅.
Definition silentPod : Pod :=
  pod "build-T-b1" PodTerminated {[ "sti-build" := noRecord ]}.
Definition mixedPod : Pod :=
  pod "build-T-b1" PodTerminated
      {[ "sti-build" := exited 0; "sidecar" := exited 2 ]}.

(** Half a second past a timeout of ten seconds. *)
Definition halfSecondLate : World :=
  world 10500000000 [b1_running] [runningPod].

(** An hour after creation, the pod having terminated quietly. *)
Definition hourLate : World := world (seconds 3600) [b1_running] [silentPod].

(** An hour after creation, the pod still running. *)
Definition hourLateRunning : World :=
  world (seconds 3600) [b1_running] [runningPod].

(** Collaborators that fail: a strategy that cannot produce a pod, a pod
    client that refuses every submission for lack of quota, a registry that
    cannot be listed. *)
Definition brokenStrategy : BuildJobStrategy error := {|
  CreateBuildPod build :=
    Err {| text := "no builder image"; rendering := "&errors.errorString{...}" |}
|}.

Definition quotaExceeded : error :=
  {| text := "quota exceeded"; rendering := "&errors.StatusError{...}" |}.

Definition unreachable : error :=
  {| text := "connection refused"; rendering := "&net.OpError{...}" |}.

Definition refusingKube : kubeclient_Interface error World := {|
  CreatePod pod w := (Err quotaExceeded, w);
  GetPod := GetPod kube
|}.

Definition brokenOs : osclient_Interface error World := {|
  ListBuilds w := (Err unreachable, w);
  UpdateBuild := UpdateBuild os
|}.

Definition controllerOf (registry : osclient_Interface error World)
  (cluster : kubeclient_Interface error World)
  (buildStrategy : BuildJobStrategy error) : BuildController error World := {|
  osClient := registry;
  kubeClient := cluster;
  buildStrategies := {[ "T" := buildStrategy ]};
  timeout := 600
|}.

Definition b4_unknown : Build :=
  build "b4" "T" (BuildStatusOther "paused") "build-T-b4".

End Fake.

(** ** The storage adapters

    The REST storages of projects and of client authorizations, which pass
    objects through to a registry.  Their methods are traced like those of
    the controller, each over its own kind of call. *)

Section Operations.

Context {World : Type}.

(** A computation over the world that records events of type [E]. *)
Definition Op (E A : Type) : Type := World -> A * World * list E.

Definition finish {E A} (a : A) : Op E A := fun w => (a, w, []).

Definition andThen {E A B} (c : Op E A) (k : A -> Op E B) : Op E B :=
  fun w =>
    let '(a, w1, events1) := c w in
    let '(b, w2, events2) := k a w1 in
    (b, w2, events1 ++ events2).

Definition perform {E A} (event : E) (method : World -> A * World) : Op E A :=
  fun w => let '(a, w') := method w in (a, w', [event]).

(** [apiserver.MakeAsync(fn)] starts [fn] and returns the channel on which
    its outcome arrives.  The channel is represented by the work that feeds
    it, to be run in whatever world it finds when it starts. *)
Definition MakeAsync {E A} (fn : Op E A) : Op E A := fn.

End Operations.

Notation "'let?' x ':=' c 'in' k" := (andThen c (fun x => k))
  (at level 10, x name, c at level 100, k at level 200).

(** The [Status] field of [kubeapi.Status]. *)
Inductive StatusValue : Type :=
| StatusSuccess
| StatusFailure
| StatusWorking.

(** *** Projects (package project) *)

Module project.

(** The project of the API, declared outside the sources: the fields are
    those the storage reads or writes, [Payload] standing for the others. *)
Record Project : Type := {
  ID : string;
  Namespace : string;
  CreationTimestamp : Time;
  Payload : string
}.

(** A [runtime.Object] by its dynamic type. *)
Inductive Object : Type :=
| ProjectObject (project : Project)
| ProjectListObject (projects : list Project)
| StatusObject (status : StatusValue)
| OtherObject (rendering : string).

(** What the storage takes from packages outside the sources:
    [labels.Selector], the rendering of an object under [%#v],
    [validation.ValidateProject] with its list of errors, and
    [errors.NewInvalid]. *)
Class Imports (error : Type) : Type := {
  Selector : Type;
  ObjectSyntax : Object -> string;
  ValidationError : Type;
  ValidateProject : Project -> list ValidationError;
  NewInvalid : string -> string -> list ValidationError -> error
}.

Section Storage.

Context {error : Type} `{GoError error} `{Imports error}.
Context {World : Type} `{Clock World}.

(** The registry interface, as far as the storage calls it. *)
Record Registry : Type := {
  ListProjects : Selector -> World -> result error (list Project) * World;
  GetProject : string -> World -> result error Project * World;
  CreateProject : Project -> World -> option error * World;
  DeleteProject : string -> World -> option error * World
}.

Inductive RegistryCall : Type :=
| ListProjectsCall (selector : Selector)
| GetProjectCall (id : string)
| CreateProjectCall (project : Project)
| DeleteProjectCall (id : string).

(** A returned pair [(runtime.Object, error)]; either may be nil. *)
Definition Reply : Type := option Object * option error.

Record REST : Type := {
  registry : Registry
}.

Definition NewREST (registry : Registry) : REST := {| registry := registry |}.

Definition List (s : REST) (selector fields : Selector)
  : Op (World := World) RegistryCall Reply :=
  let? listed := perform (ListProjectsCall selector)
                         (ListProjects (registry s) selector) in
  match listed with
  | Err err => finish (None, Some err)
  | Ok projects => finish (Some (ProjectListObject projects), None)
  end.

Definition Get (s : REST) (id : string)
  : Op (World := World) RegistryCall Reply :=
  let? got := perform (GetProjectCall id) (GetProject (registry s) id) in
  match got with
  | Err err => finish (None, Some err)
  | Ok project => finish (Some (ProjectObject project), None)
  end.

(** [Create] returns a channel or an error after reading the clock; the
    registry is only called by the work behind the channel. *)
Definition Create (s : REST) (obj : Object) (w : World)
  : option (Op (World := World) RegistryCall Reply) * option error :=
  match obj with
  | ProjectObject project =>
      let project :=
        if bool_decide (String.length (Namespace project) = 0%nat)
        then {| ID := ID project; Namespace := ID project;
                CreationTimestamp := CreationTimestamp project;
                Payload := Payload project |}
        else project in
      let project :=
        {| ID := ID project; Namespace := Namespace project;
           CreationTimestamp := Now w; Payload := Payload project |} in
      let errs := ValidateProject project in
      if bool_decide (0 < length errs)%nat
      then (None, Some (NewInvalid "project" (ID project) errs))
      else
        (Some (MakeAsync
                 (let? failed := perform (CreateProjectCall project)
                                         (CreateProject (registry s) project) in
                  match failed with
                  | Some err => finish (None, Some err)
                  | None => Get s (ID project)
                  end)),
         None)
  | _ => (None, Some (Errorf ("not a project: " +:+ ObjectSyntax obj)))
  end.

Definition Update (s : REST) (obj : Object)
  : option (Op (World := World) RegistryCall Reply) * option error :=
  (None, Some (Errorf "Projects may not be changed.")).

Definition Delete (s : REST) (id : string)
  : option (Op (World := World) RegistryCall Reply) * option error :=
  (Some (MakeAsync
           (let? failed := perform (DeleteProjectCall id)
                                   (DeleteProject (registry s) id) in
            finish (Some (StatusObject StatusSuccess), failed))),
   None).

(** The project as [Create] has it when it validates it: the namespace
    defaulted to the id, the creation timestamp set to [now]. *)
Definition prepared (project : Project) (now : Time) : Project :=
  {| ID := ID project;
     Namespace :=
       if bool_decide (String.length (Namespace project) = 0%nat)
       then ID project else Namespace project;
     CreationTimestamp := now;
     Payload := Payload project |}.

End Storage.

Arguments Registry : clear implicits.
Arguments Registry error {_} World.
Arguments REST : clear implicits.
Arguments REST error {_} World.
Arguments RegistryCall : clear implicits.
Arguments RegistryCall error {_}.
Arguments Reply : clear implicits.

End project.

(** *** Client authorizations (package clientauthorization) *)

Module clientauthorization.

(** [api.ClientAuthorization]; [ID] and [CreationTimestamp] come from the
    embedded JSONBase. *)
Record ClientAuthorization : Type := {
  ID : string;
  CreationTimestamp : Time;
  ClientName : string;
  UserName : string;
  UserUID : string;
  Scopes : list string
}.

Inductive Object : Type :=
| ClientAuthorizationObject (authorization : ClientAuthorization)
| StatusObject (status : StatusValue)
| OtherObject (rendering : string).

(** The rendering of an object under [%#v], from fmt. *)
Class Imports : Type := {
  ObjectSyntax : Object -> string
}.

Section Storage.

Context {error : Type} `{GoError error} `{Imports}.
Context {World : Type} `{Clock World}.

(** The registry interface, as far as [Get], [Create], [Update] and [Delete]
    call it.  [ClientAuthorizationID] names an authorization after its user
    and client. *)
Record Registry : Type := {
  ClientAuthorizationID : string -> string -> string;
  GetClientAuthorization :
    string -> World -> result error ClientAuthorization * World;
  CreateClientAuthorization :
    ClientAuthorization -> World -> option error * World;
  DeleteClientAuthorization : string -> World -> option error * World
}.

Inductive RegistryCall : Type :=
| GetClientAuthorizationCall (id : string)
| CreateClientAuthorizationCall (authorization : ClientAuthorization)
| DeleteClientAuthorizationCall (id : string).

Definition Reply : Type := option Object * option error.

Record REST : Type := {
  registry : Registry
}.

Definition NewREST (registry : Registry) : REST := {| registry := registry |}.

Definition Get (s : REST) (id : string)
  : Op (World := World) RegistryCall Reply :=
  let? got := perform (GetClientAuthorizationCall id)
                      (GetClientAuthorization (registry s) id) in
  match got with
  | Err err => finish (None, Some err)
  | Ok authorization =>
      finish (Some (ClientAuthorizationObject authorization), None)
  end.

Definition Create (s : REST) (obj : Object) (w : World)
  : option (Op (World := World) RegistryCall Reply) * option error :=
  match obj with
  | ClientAuthorizationObject authorization =>
      if bool_decide (UserName authorization = "")
         || bool_decide (ClientName authorization = "")
      then (None, Some (Errorf "invalid authorization"))
      else
        let authorization :=
          {| ID := ClientAuthorizationID (registry s)
                     (UserName authorization) (ClientName authorization);
             CreationTimestamp := Now w;
             ClientName := ClientName authorization;
             UserName := UserName authorization;
             UserUID := UserUID authorization;
             Scopes := Scopes authorization |} in
        (Some (MakeAsync
                 (let? failed :=
                    perform (CreateClientAuthorizationCall authorization)
                            (CreateClientAuthorization (registry s) authorization) in
                  match failed with
                  | Some err => finish (None, Some err)
                  | None => Get s (ID authorization)
                  end)),
         None)
  | _ => (None, Some (Errorf ("not an authorization: " +:+ ObjectSyntax obj)))
  end.

Definition Update (s : REST) (obj : Object) (w : World)
  : option (Op (World := World) RegistryCall Reply) * option error :=
  Create s obj w.

Definition Delete (s : REST) (id : string)
  : option (Op (World := World) RegistryCall Reply) * option error :=
  (Some (MakeAsync
           (let? failed := perform (DeleteClientAuthorizationCall id)
                                   (DeleteClientAuthorization (registry s) id) in
            finish (Some (StatusObject StatusSuccess), failed))),
   None).

End Storage.

Arguments Registry : clear implicits.
Arguments REST : clear implicits.
Arguments Reply : clear implicits.

End clientauthorization.

(** *** In-memory registries for the storages *)

Module FakeStorage.

Record World : Type := {
  clock : Time;
  projects : gmap string project.Project;
  authorizations : gmap string clientauthorization.ClientAuthorization
}.

#[global] Instance World_Clock : Clock World := clock.

Definition failure (message : string) : Fake.error :=
  {| Fake.text := message; Fake.rendering := "&errors.StatusError{...}" |}.

(** The project validation of the scenarios: an id is required. *)
#[global] Instance project_Imports : project.Imports Fake.error := {
  project.Selector := unit;
  project.ObjectSyntax obj := "&api.Build{...}";
  project.ValidationError := string;
  project.ValidateProject p :=
    if decide (project.ID p = "") then ["id: required value"] else [];
  project.NewInvalid kind name errs := failure (kind +:+ " " +:+ name +:+ " is invalid")
}.

#[global] Instance clientauthorization_Imports : clientauthorization.Imports := {
  clientauthorization.ObjectSyntax obj := "&api.Client{...}"
}.

Definition projectRegistry : project.Registry Fake.error World := {|
  project.ListProjects selector w :=
    (Ok (map snd (map_to_list (projects w))), w);
  project.GetProject id w :=
    match projects w !! id with
    | Some p => (Ok p, w)
    | None => (Err (failure ("project " +:+ id +:+ " not found")), w)
    end;
  project.CreateProject p w :=
    match projects w !! project.ID p with
    | Some _ =>
        (Some (failure ("project " +:+ project.ID p +:+ " already exists")), w)
    | None =>
        (None, {| clock := clock w;
                  projects := <[project.ID p := p]> (projects w);
                  authorizations := authorizations w |})
    end;
  project.DeleteProject id w :=
    (None, {| clock := clock w; projects := delete id (projects w);
              authorizations := authorizations w |})
|}.

Definition authorizationRegistry
  : clientauthorization.Registry Fake.error World := {|
  clientauthorization.ClientAuthorizationID user client := user +:+ ":" +:+ client;
  clientauthorization.GetClientAuthorization id w :=
    match authorizations w !! id with
    | Some a => (Ok a, w)
    | None => (Err (failure ("authorization " +:+ id +:+ " not found")), w)
    end;
  clientauthorization.CreateClientAuthorization a w :=
    (None, {| clock := clock w; projects := projects w;
              authorizations :=
                <[clientauthorization.ID a := a]> (authorizations w) |});
  clientauthorization.DeleteClientAuthorization id w :=
    (None, {| clock := clock w; projects := projects w;
              authorizations := delete id (authorizations w) |})
|}.

Definition empty (now : Time) : World :=
  {| clock := now; projects := ∅; authorizations := ∅ |}.

Definition frontend : project.Project :=
  {| project.ID := "frontend"; project.Namespace := "";
     project.CreationTimestamp := 0; project.Payload := "web tier" |}.

Definition grant : clientauthorization.ClientAuthorization :=
  {| clientauthorization.ID := "chosen-by-caller";
     clientauthorization.CreationTimestamp := 0;
     clientauthorization.ClientName := "console";
     clientauthorization.UserName := "alice";
     clientauthorization.UserUID := "1000";
     clientauthorization.Scopes := ["user:info"] |}.

End FakeStorage.

(** ** Properties of the state machine *)

Section Properties.

Context {error : Type} `{GoError error}.
Context {World : Type} `{Clock World}.

Implicit Types (bc : BuildController error World) (build : Build) (w : World).

(** The name [synchronize] gives to the pod of a build. *)
Definition podName (type : BuildType) (id : string) : string :=
  "build-" +:+ type +:+ "-" +:+ id.

(** The status that one application of [synchronize] computes. *)
Definition nextStatusOf bc build w : BuildStatus :=
  (value (synchronize bc build w)).1.2.

(** The error that one application of [synchronize] returns. *)
Definition errorOf bc build w : option error :=
  (value (synchronize bc build w)).2.

(** The build as [synchronize] leaves it behind the pointer. *)
Definition syncedBuild bc build w : Build :=
  (value (synchronize bc build w)).1.1.

(** The builds handed to [UpdateBuild] in a trace, in order. *)
Definition updatesOf (trace : list Call) : list Build :=
  omap (fun call =>
          match call with UpdateBuildCall build => Some build | _ => None end)
       trace.

(** The pods handed to [CreatePod] in a trace, in order. *)
Definition submissionsOf (trace : list Call) : list Pod :=
  omap (fun call =>
          match call with CreatePodCall pod => Some pod | _ => None end)
       trace.

(** The statuses from which [synchronize] never moves a build. *)
Definition terminal (status : BuildStatus) : Prop :=
  status = BuildComplete \/ status = BuildFailed \/ status = BuildError.

(** A sub-task reports the exit code [code]: it has a termination record and
    the record holds [code]. *)
Definition reportsExitCode (info : ContainerStatus) (code : Z) : Prop :=
  exists termination,
    Termination (State info) = Some termination /\ ExitCode termination = code.

(** A sub-task reports some exit code other than 0. *)
Definition reportsFailure (info : ContainerStatus) : Prop :=
  exists code, reportsExitCode info code /\ code <> 0.

(** How far along its lifecycle a status is.  A value that is none of the six
    statuses is placed at the start. *)
Definition rank (status : BuildStatus) : nat :=
  match status with
  | BuildNew => 0
  | BuildPending => 1
  | BuildRunning => 2
  | BuildComplete | BuildFailed | BuildError => 3
  | BuildStatusOther _ => 0
  end.

(** *** Unfolding [synchronize] one status at a time *)

Lemma synchronize_New bc build w :
  Status build = BuildNew ->
  synchronize bc build w =
    (set_PodID (podName (Type_ (Input build)) (ID build)) build,
     BuildPending, None, w, []).
Proof. intros Hs. unfold synchronize. rewrite Hs. reflexivity. Qed.

Lemma synchronize_absorbing bc build w :
  terminal (Status build) ->
  synchronize bc build w = (build, Status build, None, w, []).
Proof.
  intros [Hs | [Hs | Hs]]; unfold synchronize; rewrite Hs; reflexivity.
Qed.

Lemma synchronize_Pending_unregistered bc build w :
  Status build = BuildPending ->
  buildStrategies bc !! Type_ (Input build) = None ->
  synchronize bc build w =
    (build, BuildError,
     Some (Errorf ("No build type for " +:+ Type_ (Input build))), w, []).
Proof. intros Hs Hnone. unfold synchronize. rewrite Hs, Hnone. reflexivity. Qed.

Lemma synchronize_Pending_submitted bc build w buildStrategy podSpec :
  Status build = BuildPending ->
  buildStrategies bc !! Type_ (Input build) = Some buildStrategy ->
  CreateBuildPod buildStrategy build = Ok podSpec ->
  synchronize bc build w =
    let '(created, w') := CreatePod (kubeClient bc) podSpec w in
    (build,
     match created with
     | Ok _ => BuildRunning
     | Err err =>
         if bool_decide (Index (Error err) "already exists" <> -1)
         then BuildPending else BuildFailed
     end,
     match created with Ok _ => None | Err err => Some err end,
     w', [CreatePodCall podSpec]).
Proof.
  intros Hs Hsome Hspec. unfold synchronize. rewrite Hs, Hsome, Hspec.
  unfold bind, invoke, ret.
  destruct (CreatePod (kubeClient bc) podSpec w) as [[created | err] w'];
    [reflexivity |].
  destruct (bool_decide (Index (Error err) "already exists" <> -1));
    reflexivity.
Qed.

Lemma synchronize_Running_timedOut bc build w :
  Status build = BuildRunning ->
  hasTimeoutElapsed (Now w) build (timeout bc) = true ->
  synchronize bc build w =
    (build, BuildFailed, Some (Errorf "Build timed out"), w, []).
Proof. intros Hs Ht. unfold synchronize. rewrite Hs, Ht. reflexivity. Qed.

Lemma synchronize_Running_fetch bc build w :
  Status build = BuildRunning ->
  hasTimeoutElapsed (Now w) build (timeout bc) = false ->
  synchronize bc build w =
    let '(fetched, w') := GetPod (kubeClient bc) (PodID build) w in
    (build,
     match fetched with
     | Err _ => BuildRunning
     | Ok pod =>
         if bool_decide (PodState_Status (CurrentState pod) <> PodTerminated)
         then BuildRunning
         else checkExitCodes (Info (CurrentState pod))
     end,
     match fetched with
     | Err err =>
         Some (Errorf ("Error retrieving pod for build ID " +:+ ID build
                       +:+ ": " +:+ GoSyntax err))
     | Ok _ => None
     end,
     w', [GetPodCall (PodID build)]).
Proof.
  intros Hs Ht. unfold synchronize. rewrite Hs, Ht.
  unfold bind, invoke, ret.
  destruct (GetPod (kubeClient bc) (PodID build) w) as [[pod | err] w'];
    [| reflexivity].
  destruct (bool_decide (PodState_Status (CurrentState pod) <> PodTerminated));
    reflexivity.
Qed.

(** *** The loop over the containers of a terminated pod *)

Lemma exitedNonZero_reportsFailure (info : ContainerStatus) :
  exitedNonZero info = true <-> reportsFailure info.
Proof.
  unfold exitedNonZero, reportsFailure, reportsExitCode.
  destruct (Termination (State info)) as [t |].
  - rewrite bool_decide_eq_true. split.
    + intros Hne. exists (ExitCode t). split; [exists t; auto | exact Hne].
    + intros (code & (t' & Ht' & Hcode) & Hne). congruence.
  - split; [discriminate |]. intros (code & (t' & Ht' & _) & _). discriminate.
Qed.

(** The loop is a disjunction over the entries of the map, in whatever order
    they are visited. *)
Lemma checkExitCodes_cases (info : gmap string ContainerStatus) :
  (checkExitCodes info = BuildFailed /\
     exists name status, info !! name = Some status /\ reportsFailure status)
  \/ (checkExitCodes info = BuildComplete /\
        forall name status, info !! name = Some status -> ~ reportsFailure status).
Proof.
  unfold checkExitCodes.
  apply (map_fold_weak_ind (fun next (m : gmap string ContainerStatus) =>
    (next = BuildFailed /\
       exists name status, m !! name = Some status /\ reportsFailure status)
    \/ (next = BuildComplete /\
          forall name status, m !! name = Some status -> ~ reportsFailure status))).
  - right. split; [reflexivity |]. intros name status Hl.
    rewrite lookup_empty in Hl. discriminate.
  - intros name status m next Hfresh IH.
    destruct (exitedNonZero status) eqn:Hexit.
    + left. split; [reflexivity |]. exists name, status.
      rewrite lookup_insert_eq. split; [reflexivity |].
      apply exitedNonZero_reportsFailure, Hexit.
    + destruct IH as [[-> (n & s & Hl & Hf)] | [-> Hall]].
      * left. split; [reflexivity |]. exists n, s. split; [| exact Hf].
        rewrite lookup_insert_ne; [exact Hl |]. intros ->. congruence.
      * right. split; [reflexivity |]. intros n s Hl.
        destruct (decide (name = n)) as [-> | Hne].
        -- rewrite lookup_insert_eq in Hl. injection Hl as <-.
           rewrite <- exitedNonZero_reportsFailure, Hexit. discriminate.
        -- rewrite lookup_insert_ne in Hl by exact Hne. eauto.
Qed.

Lemma checkExitCodes_Failed (info : gmap string ContainerStatus) name status :
  info !! name = Some status -> reportsFailure status ->
  checkExitCodes info = BuildFailed.
Proof.
  intros Hl Hf. destruct (checkExitCodes_cases info) as [[-> _] | [_ Hall]];
    [reflexivity | destruct (Hall _ _ Hl Hf)].
Qed.

Lemma checkExitCodes_Complete (info : gmap string ContainerStatus) :
  (forall name status, info !! name = Some status -> ~ reportsFailure status) ->
  checkExitCodes info = BuildComplete.
Proof.
  intros Hall. destruct (checkExitCodes_cases info) as [[_ Hex] | [-> _]];
    [| reflexivity].
  destruct Hex as (n & s & Hl & Hf). destruct (Hall _ _ Hl Hf).
Qed.

(** *** The loop body of [watchBuilds] *)

Ltac run_synchronize :=
  unfold synchronize, bind, invoke, ret;
  repeat match goal with
         | |- context [match ?x with _ => _ end] =>
             lazymatch x with
             | context [match _ with _ => _ end] => fail
             | _ => destruct x eqn:?
             end
         end.

(** [synchronize] writes the [PodID] of the build at most; its status is
    returned, never stored. *)
Lemma synchronize_keeps_Status bc build w :
  Status (syncedBuild bc build w) = Status build.
Proof. unfold syncedBuild, value. run_synchronize; simpl; congruence. Qed.

Lemma synchronize_no_update bc build w :
  updatesOf (calls (synchronize bc build w)) = [].
Proof. unfold calls. run_synchronize; reflexivity. Qed.

Lemma updatesOf_app (t1 t2 : list Call) :
  updatesOf (t1 ++ t2) = updatesOf t1 ++ updatesOf t2.
Proof. apply omap_app. Qed.

Lemma syncBuild_calls bc build w :
  calls (syncBuild bc build w) =
    calls (synchronize bc build w) ++
    (if decide (nextStatusOf bc build w = Status build) then []
     else [UpdateBuildCall
             (set_Status (nextStatusOf bc build w) (syncedBuild bc build w))]).
Proof.
  pose proof (synchronize_keeps_Status bc build w) as Hkeep.
  unfold syncBuild, nextStatusOf, syncedBuild, calls, value, bind, invoke, ret in *.
  destruct (synchronize bc build w) as [[[[build' next] err] w1] trace].
  simpl in *. rewrite Hkeep.
  destruct (decide (next = Status build)) as [Heq | Hne].
  - rewrite bool_decide_eq_false_2 by (intros Hc; exact (Hc Heq)). reflexivity.
  - rewrite bool_decide_eq_true_2 by exact Hne.
    destruct (UpdateBuild (osClient bc) (set_Status next build') w1).
    reflexivity.
Qed.

Lemma syncBuild_updates bc build w :
  updatesOf (calls (syncBuild bc build w)) =
    if decide (nextStatusOf bc build w = Status build) then []
    else [set_Status (nextStatusOf bc build w) (syncedBuild bc build w)].
Proof.
  rewrite syncBuild_calls, updatesOf_app, synchronize_no_update.
  destruct (decide (nextStatusOf bc build w = Status build)); reflexivity.
Qed.

Lemma syncBuilds_app bc (pre post : list Build) w :
  calls (syncBuilds bc (pre ++ post) w) =
    calls (syncBuilds bc pre w) ++
    calls (syncBuilds bc post (world_after (syncBuilds bc pre w))).
Proof.
  revert w. induction pre as [| build pre IH]; intros w; [reflexivity |].
  specialize (IH (world_after (syncBuild bc build w))).
  unfold calls, world_after in *. simpl. unfold bind in *.
  destruct (syncBuild bc build w) as [[u w1] t1]. simpl in *.
  destruct (syncBuilds bc (pre ++ post) w1) as [[u2 w2] t2].
  destruct (syncBuilds bc pre w1) as [[u3 w3] t3]. simpl in *.
  destruct (syncBuilds bc post w3) as [[u4 w4] t4]. simpl in *.
  rewrite IH. apply app_assoc.
Qed.

Lemma syncBuilds_cons bc build (post : list Build) w :
  calls (syncBuilds bc (build :: post) w) =
    calls (syncBuild bc build w) ++
    calls (syncBuilds bc post (world_after (syncBuild bc build w))).
Proof.
  unfold calls, world_after. simpl. unfold bind.
  destruct (syncBuild bc build w) as [[u w1] t1]. simpl.
  destruct (syncBuilds bc post w1) as [[u2 w2] t2]. reflexivity.
Qed.

Lemma tick_calls bc w (builds : list Build) w0 :
  ListBuilds (osClient bc) w = (Ok builds, w0) ->
  calls (tick bc w) = ListBuildsCall :: calls (syncBuilds bc builds w0).
Proof.
  intros Hlist. unfold tick, calls, bind, invoke, ret. rewrite Hlist.
  destruct (syncBuilds bc builds w0) as [[u w1] t1]. simpl.
  rewrite app_nil_r. reflexivity.
Qed.

(** [watchBuilds] runs one tick per instant delivered, until a tick returns. *)
Lemma watchBuilds_cons bc (t : Time) (syncTime : list Time) w :
  calls (watchBuilds bc (t :: syncTime) w) =
    calls (tick bc w) ++
    (if value (tick bc w)
     then calls (watchBuilds bc syncTime (world_after (tick bc w)))
     else []).
Proof.
  unfold calls, value, world_after. simpl. unfold bind.
  destruct (tick bc w) as [[again w1] t1]. simpl. destruct again.
  - destruct (watchBuilds bc syncTime w1) as [[u w2] t2]. reflexivity.
  - reflexivity.
Qed.

(** *** The lifecycle, status by status *)

(** C1. A build whose status is New is moved to Pending by one application of
    [synchronize], which also gives it the pod id
    "build-" + input type + "-" + id.  That id is never empty, and it depends
    on the type and the id of the build only: computing it again, under any
    controller and in any world, gives the same value.  In the loop, the
    build written back carries both the new status and the pod id. *)
Theorem new_build_becomes_pending bc build w :
  Status build = BuildNew ->
  nextStatusOf bc build w = BuildPending
  /\ PodID (syncedBuild bc build w) =
       "build-" +:+ Type_ (Input build) +:+ "-" +:+ ID build
  /\ PodID (syncedBuild bc build w) <> ""
  /\ (forall bc' build' w',
        Status build' = BuildNew ->
        Type_ (Input build') = Type_ (Input build) ->
        ID build' = ID build ->
        PodID (syncedBuild bc' build' w') = PodID (syncedBuild bc build w))
  /\ updatesOf (calls (syncBuild bc build w)) =
       [set_Status BuildPending
          (set_PodID (podName (Type_ (Input build)) (ID build)) build)].
Proof.
  intros Hs.
  assert (Hnext : nextStatusOf bc build w = BuildPending).
  { unfold nextStatusOf. rewrite synchronize_New by exact Hs. reflexivity. }
  assert (Hid : syncedBuild bc build w =
                set_PodID (podName (Type_ (Input build)) (ID build)) build).
  { unfold syncedBuild. rewrite synchronize_New by exact Hs. reflexivity. }
  split; [exact Hnext |]. split; [rewrite Hid; reflexivity |].
  split; [rewrite Hid; discriminate |]. split.
  - intros bc' build' w' Hs' Htype Hident. rewrite Hid.
    unfold syncedBuild. rewrite synchronize_New by exact Hs'.
    simpl. rewrite Htype, Hident. reflexivity.
  - rewrite syncBuild_updates, Hnext, Hid, Hs.
    destruct (decide (BuildPending = BuildNew)); [discriminate | reflexivity].
Qed.

(** C2. A Pending build whose pod is submitted and refused with an error
    whose text contains "already exists" stays Pending: the status returned
    is the current one, it is neither Failed nor Error, and the loop writes
    nothing back to the registry for it. *)
Theorem pending_conflict_stays_pending bc build w buildStrategy podSpec err w' :
  Status build = BuildPending ->
  buildStrategies bc !! Type_ (Input build) = Some buildStrategy ->
  CreateBuildPod buildStrategy build = Ok podSpec ->
  CreatePod (kubeClient bc) podSpec w = (Err err, w') ->
  Index (Error err) "already exists" <> -1 ->
  nextStatusOf bc build w = BuildPending
  /\ nextStatusOf bc build w = Status build
  /\ nextStatusOf bc build w <> BuildFailed
  /\ nextStatusOf bc build w <> BuildError
  /\ updatesOf (calls (syncBuild bc build w)) = [].
Proof.
  intros Hs Hsome Hspec Hcreate Hconflict.
  assert (Hnext : nextStatusOf bc build w = BuildPending).
  { unfold nextStatusOf.
    rewrite (synchronize_Pending_submitted _ _ _ _ _ Hs Hsome Hspec), Hcreate.
    simpl. rewrite bool_decide_eq_true_2 by exact Hconflict. reflexivity. }
  rewrite syncBuild_updates, Hnext, Hs.
  repeat split; discriminate.
Qed.

(** C5. Complete, Failed and Error are absorbing.  Whatever the controller
    and whatever the world shows, [synchronize] returns the status the build
    already has, with no error, without calling any client and without
    touching the build; applying it again to the outcome changes nothing,
    and the loop writes nothing back. *)
Theorem terminal_statuses_are_absorbing bc build w :
  terminal (Status build) ->
  nextStatusOf bc build w = Status build
  /\ errorOf bc build w = None
  /\ syncedBuild bc build w = build
  /\ calls (synchronize bc build w) = []
  /\ world_after (synchronize bc build w) = w
  /\ (forall bc' w',
        nextStatusOf bc'
          (set_Status (nextStatusOf bc build w) (syncedBuild bc build w)) w'
        = Status build)
  /\ calls (syncBuild bc build w) = [].
Proof.
  intros Hterminal.
  assert (Hnext : nextStatusOf bc build w = Status build).
  { unfold nextStatusOf. rewrite synchronize_absorbing by exact Hterminal.
    reflexivity. }
  assert (Hsame : syncedBuild bc build w = build).
  { unfold syncedBuild. rewrite synchronize_absorbing by exact Hterminal.
    reflexivity. }
  split; [exact Hnext |]. split.
  { unfold errorOf. rewrite synchronize_absorbing by exact Hterminal.
    reflexivity. }
  split; [exact Hsame |].
  split; [rewrite synchronize_absorbing by exact Hterminal; reflexivity |].
  split; [rewrite synchronize_absorbing by exact Hterminal; reflexivity |].
  split.
  - intros bc' w'. rewrite Hnext, Hsame. unfold nextStatusOf.
    rewrite synchronize_absorbing by exact Hterminal. reflexivity.
  - rewrite syncBuild_calls, Hnext.
    rewrite synchronize_absorbing by exact Hterminal.
    destruct (decide (Status build = Status build)); [reflexivity | contradiction].
Qed.

(** C6. A Pending build whose input type has no entry in the strategy table
    is moved to Error, not to Failed, and no pod is submitted for it: neither
    [synchronize] nor the loop body around it calls [CreatePod]. *)
Theorem pending_without_strategy_errors bc build w :
  Status build = BuildPending ->
  buildStrategies bc !! Type_ (Input build) = None ->
  nextStatusOf bc build w = BuildError
  /\ nextStatusOf bc build w <> BuildFailed
  /\ errorOf bc build w =
       Some (Errorf ("No build type for " +:+ Type_ (Input build)))
  /\ calls (synchronize bc build w) = []
  /\ submissionsOf (calls (syncBuild bc build w)) = [].
Proof.
  intros Hs Hnone.
  pose proof (synchronize_Pending_unregistered bc build w Hs Hnone) as Hsync.
  assert (Hnext : nextStatusOf bc build w = BuildError).
  { unfold nextStatusOf. rewrite Hsync. reflexivity. }
  split; [exact Hnext |]. split; [rewrite Hnext; discriminate |].
  split; [unfold errorOf; rewrite Hsync; reflexivity |].
  split; [rewrite Hsync; reflexivity |].
  rewrite syncBuild_calls, Hsync. simpl.
  destruct (decide (nextStatusOf bc build w = Status build)); reflexivity.
Qed.

(** C7. A Running build that has not timed out and whose pod cannot be
    fetched stays Running: the status returned is not Complete, Failed or
    Error, and the loop writes nothing back. *)
Theorem running_fetch_failure_stays_running bc build w err w' :
  Status build = BuildRunning ->
  hasTimeoutElapsed (Now w) build (timeout bc) = false ->
  GetPod (kubeClient bc) (PodID build) w = (Err err, w') ->
  nextStatusOf bc build w = BuildRunning
  /\ nextStatusOf bc build w = Status build
  /\ ~ terminal (nextStatusOf bc build w)
  /\ updatesOf (calls (syncBuild bc build w)) = [].
Proof.
  intros Hs Htimeout Hget.
  assert (Hnext : nextStatusOf bc build w = BuildRunning).
  { unfold nextStatusOf.
    rewrite (synchronize_Running_fetch _ _ _ Hs Htimeout), Hget. reflexivity. }
  rewrite syncBuild_updates, Hnext, Hs.
  repeat split.
  intros [Hc | [Hc | Hc]]; discriminate.
Qed.

(** C8. In a tick whose list call returns the builds [pre ++ build :: post],
    the calls of the tick are the list call, the calls made for [pre], the
    calls made for [build] in the world that [pre] left, and the calls made
    for [post].  Among the calls made for [build] there is no [UpdateBuild]
    when the status computed for it equals its current status, and there is
    exactly one, carrying the new status, when the two differ. *)
Theorem update_only_on_status_change bc w w0 (pre post : list Build) build :
  ListBuilds (osClient bc) w = (Ok (pre ++ build :: post), w0) ->
  calls (tick bc w) =
    ListBuildsCall ::
    calls (syncBuilds bc pre w0) ++
    calls (syncBuild bc build (world_after (syncBuilds bc pre w0))) ++
    calls (syncBuilds bc post
             (world_after
                (syncBuild bc build (world_after (syncBuilds bc pre w0)))))
  /\ (nextStatusOf bc build (world_after (syncBuilds bc pre w0)) = Status build ->
      updatesOf
        (calls (syncBuild bc build (world_after (syncBuilds bc pre w0)))) = [])
  /\ (nextStatusOf bc build (world_after (syncBuilds bc pre w0)) <> Status build ->
      updatesOf
        (calls (syncBuild bc build (world_after (syncBuilds bc pre w0)))) =
      [set_Status
         (nextStatusOf bc build (world_after (syncBuilds bc pre w0)))
         (syncedBuild bc build (world_after (syncBuilds bc pre w0)))]).
Proof.
  intros Hlist. split; [| split].
  - rewrite (tick_calls _ _ _ _ Hlist), syncBuilds_app, syncBuilds_cons.
    reflexivity.
  - intros Hsame. rewrite syncBuild_updates.
    destruct (decide _); [reflexivity | contradiction].
  - intros Hchanged. rewrite syncBuild_updates.
    destruct (decide _); [contradiction | reflexivity].
Qed.

(** *** The timeout test *)

Lemma int_Seconds (d : Duration) : int (Seconds d) = Z.quot d Second.
Proof. reflexivity. Qed.


Lemma hasTimeoutElapsed_true (now : Time) build (limit : Z) :
  hasTimeoutElapsed now build limit = true <->
  limit < int (Seconds (Since now (CreationTimestamp build))).
Proof. unfold hasTimeoutElapsed. rewrite bool_decide_eq_true. lia. Qed.


(** For a Running build, the error text "Build timed out" is returned on a
    timeout and on nothing else. *)
Lemma running_error_text bc build w e :
  Status build = BuildRunning ->
  hasTimeoutElapsed (Now w) build (timeout bc) = false ->
  errorOf bc build w = Some e ->
  Error e <> "Build timed out".
Proof.
  intros Hs Htimeout. unfold errorOf.
  rewrite (synchronize_Running_fetch _ _ _ Hs Htimeout).
  destruct (GetPod (kubeClient bc) (PodID build) w) as [[pod | err] w'];
    simpl; [discriminate |].
  intros [= <-]. rewrite Error_Errorf. simpl. discriminate.
Qed.

Lemma no_failure_exit_code (status : ContainerStatus) termination :
  ~ reportsFailure status ->
  Termination (State status) = Some termination ->
  ExitCode termination = 0.
Proof.
  intros Hno Hrecord. destruct (decide (ExitCode termination = 0)) as [| Hne];
    [assumption |].
  destruct Hno. exists (ExitCode termination).
  split; [exists termination; auto | exact Hne].
Qed.

(** C3, as amended.  For a Running build whose pod is reported terminated,
    [synchronize] returns Complete only if every sub-task that has a
    termination record reports exit code 0 in it (a sub-task without a record
    does not stand in the way), and it returns Failed whenever some sub-task
    reports an exit code other than 0, whatever the other sub-tasks report.
    No other status is returned. *)
Theorem terminated_pod_exit_codes bc build w pod w' :
  Status build = BuildRunning ->
  GetPod (kubeClient bc) (PodID build) w = (Ok pod, w') ->
  PodState_Status (CurrentState pod) = PodTerminated ->
  (nextStatusOf bc build w = BuildComplete ->
   forall name status termination,
     Info (CurrentState pod) !! name = Some status ->
     Termination (State status) = Some termination ->
     ExitCode termination = 0)
  /\ (forall name status,
        Info (CurrentState pod) !! name = Some status ->
        reportsFailure status ->
        nextStatusOf bc build w = BuildFailed)
  /\ (nextStatusOf bc build w = BuildComplete
      \/ nextStatusOf bc build w = BuildFailed).
Proof.
  intros Hs Hget Hterminated. unfold nextStatusOf.
  destruct (hasTimeoutElapsed (Now w) build (timeout bc)) eqn:Htimeout.
  - rewrite (synchronize_Running_timedOut _ _ _ Hs Htimeout). simpl.
    split; [discriminate |]. split; [reflexivity | right; reflexivity].
  - rewrite (synchronize_Running_fetch _ _ _ Hs Htimeout), Hget. simpl.
    rewrite bool_decide_eq_false_2 by (intros Hc; exact (Hc Hterminated)).
    destruct (checkExitCodes_cases (Info (CurrentState pod)))
      as [[-> _] | [-> Hall]].
    + split; [discriminate |]. split; [reflexivity | right; reflexivity].
    + split; [| split; [| left; reflexivity]].
      * intros _ name status termination Hlookup Hrecord.
        exact (no_failure_exit_code _ _ (Hall _ _ Hlookup) Hrecord).
      * intros name status Hlookup Hfail. destruct (Hall _ _ Hlookup Hfail).
Qed.

(** C4, as amended.  For a Running build whose elapsed time since creation,
    cut down to whole seconds, is greater than the configured timeout,
    [synchronize] returns Failed with the error "Build timed out".  The test
    comes before any look at the pod: no client is called, so the outcome is
    the same whether or not the pod has terminated.  The error text tells the
    timeout apart: no other outcome for a Running build carries it.  The loop
    then writes the Failed status back. *)
Theorem running_timeout_fails bc build w :
  Status build = BuildRunning ->
  timeout bc < int (Seconds (Since (Now w) (CreationTimestamp build))) ->
  nextStatusOf bc build w = BuildFailed
  /\ errorOf bc build w = Some (Errorf "Build timed out")
  /\ calls (synchronize bc build w) = []
  /\ (forall build' w' e,
        Status build' = BuildRunning ->
        errorOf bc build' w' = Some e ->
        Error e = "Build timed out" ->
        timeout bc < int (Seconds (Since (Now w') (CreationTimestamp build'))))
  /\ updatesOf (calls (syncBuild bc build w)) = [set_Status BuildFailed build].
Proof.
  intros Hs Hlate. apply hasTimeoutElapsed_true in Hlate.
  pose proof (synchronize_Running_timedOut bc build w Hs Hlate) as Hsync.
  assert (Hnext : nextStatusOf bc build w = BuildFailed).
  { unfold nextStatusOf. rewrite Hsync. reflexivity. }
  split; [exact Hnext |].
  split; [unfold errorOf; rewrite Hsync; reflexivity |].
  split; [rewrite Hsync; reflexivity |]. split.
  - intros build' w' e Hs' Herr Htext. apply hasTimeoutElapsed_true.
    destruct (hasTimeoutElapsed (Now w') build' (timeout bc)) eqn:Htimeout;
      [reflexivity |].
    destruct (running_error_text _ _ _ _ Hs' Htimeout Herr Htext).
  - rewrite syncBuild_updates, Hnext, Hs. unfold syncedBuild. rewrite Hsync.
    reflexivity.
Qed.

(** C9, as amended.  For a Running build that has not timed out and whose pod
    is reported terminated, [synchronize] returns Complete whenever every
    sub-task either has no termination record at all or reports exit code 0.
    That covers a pod none of whose sub-tasks has a record, and a pod with no
    sub-task at all. *)
Theorem missing_termination_counts_as_success bc build w pod w' :
  Status build = BuildRunning ->
  hasTimeoutElapsed (Now w) build (timeout bc) = false ->
  GetPod (kubeClient bc) (PodID build) w = (Ok pod, w') ->
  PodState_Status (CurrentState pod) = PodTerminated ->
  (forall name status,
     Info (CurrentState pod) !! name = Some status ->
     Termination (State status) = None \/ reportsExitCode status 0) ->
  nextStatusOf bc build w = BuildComplete.
Proof.
  intros Hs Htimeout Hget Hterminated Hall. unfold nextStatusOf.
  rewrite (synchronize_Running_fetch _ _ _ Hs Htimeout), Hget. simpl.
  rewrite bool_decide_eq_false_2 by (intros Hc; exact (Hc Hterminated)).
  apply checkExitCodes_Complete.
  intros name status Hlookup (code & (t & Hrecord & Hcode) & Hne).
  destruct (Hall _ _ Hlookup) as [Hnone | (t' & Hrecord' & Hzero)]; congruence.
Qed.


(** *** The remaining branches of [synchronize] *)

Lemma synchronize_Pending_strategy_error bc build w buildStrategy err :
  Status build = BuildPending ->
  buildStrategies bc !! Type_ (Input build) = Some buildStrategy ->
  CreateBuildPod buildStrategy build = Err err ->
  synchronize bc build w = (build, BuildFailed, Some err, w, []).
Proof.
  intros Hs Hsome Hspec. unfold synchronize. rewrite Hs, Hsome, Hspec.
  reflexivity.
Qed.

Lemma synchronize_unknown bc build w raw :
  Status build = BuildStatusOther raw ->
  synchronize bc build w =
    (build, BuildError, Some (Errorf ("Invalid build status: " +:+ raw)), w, []).
Proof. intros Hs. unfold synchronize. rewrite Hs. reflexivity. Qed.

(** What [synchronize] leaves of the build it is given. *)
Lemma synchronize_frame bc build w :
  ID (syncedBuild bc build w) = ID build
  /\ CreationTimestamp (syncedBuild bc build w) = CreationTimestamp build
  /\ Labels (syncedBuild bc build w) = Labels build
  /\ Input (syncedBuild bc build w) = Input build
  /\ (Status build <> BuildNew -> syncedBuild bc build w = build).
Proof.
  unfold syncedBuild, value. run_synchronize; simpl;
    repeat split; try reflexivity; intros Hne; congruence.
Qed.

(** The status [synchronize] computes is never behind the current one, and
    it is one of Pending, Running, Complete, Failed and Error. *)
Lemma synchronize_rank bc build w :
  (rank (Status build) <= rank (nextStatusOf bc build w))%nat
  /\ (1 <= rank (nextStatusOf bc build w))%nat.
Proof.
  unfold nextStatusOf, value.
  destruct (decide (Status build = BuildRunning)) as [Hs | Hne].
  - rewrite Hs.
    destruct (hasTimeoutElapsed (Now w) build (timeout bc)) eqn:Htimeout.
    + rewrite (synchronize_Running_timedOut _ _ _ Hs Htimeout). simpl. lia.
    + rewrite (synchronize_Running_fetch _ _ _ Hs Htimeout).
      destruct (GetPod (kubeClient bc) (PodID build) w) as [[pod | err] w'];
        simpl; [| lia].
      destruct (bool_decide (PodState_Status (CurrentState pod) <> PodTerminated));
        simpl; [lia |].
      destruct (checkExitCodes_cases (Info (CurrentState pod)))
        as [[-> _] | [-> _]]; simpl; lia.
  - run_synchronize; simpl; try lia; congruence.
Qed.

(** X1. A Pending build whose strategy fails to produce a pod definition is
    moved to Failed with the strategy's own error; no client is called, so no
    pod is submitted, and the loop writes Failed back. *)
Theorem pending_strategy_error_fails bc build w buildStrategy err :
  Status build = BuildPending ->
  buildStrategies bc !! Type_ (Input build) = Some buildStrategy ->
  CreateBuildPod buildStrategy build = Err err ->
  nextStatusOf bc build w = BuildFailed
  /\ errorOf bc build w = Some err
  /\ calls (synchronize bc build w) = []
  /\ world_after (synchronize bc build w) = w
  /\ calls (syncBuild bc build w) =
       [UpdateBuildCall (set_Status BuildFailed build)].
Proof.
  intros Hs Hsome Hspec.
  pose proof (synchronize_Pending_strategy_error bc build w _ _ Hs Hsome Hspec)
    as Hsync.
  assert (Hnext : nextStatusOf bc build w = BuildFailed)
    by (unfold nextStatusOf; rewrite Hsync; reflexivity).
  split; [exact Hnext |].
  split; [unfold errorOf; rewrite Hsync; reflexivity |].
  split; [rewrite Hsync; reflexivity |].
  split; [rewrite Hsync; reflexivity |].
  rewrite syncBuild_calls, Hnext, Hs. unfold syncedBuild. rewrite Hsync.
  reflexivity.
Qed.

(** X2. A Pending build whose pod definition is produced and accepted by the
    pod client is moved to Running with no error.  The pod submitted is the
    one the strategy produced, it is submitted once, and the loop then writes
    Running back. *)
Theorem pending_submission_starts_running bc build w buildStrategy podSpec
    created w' :
  Status build = BuildPending ->
  buildStrategies bc !! Type_ (Input build) = Some buildStrategy ->
  CreateBuildPod buildStrategy build = Ok podSpec ->
  CreatePod (kubeClient bc) podSpec w = (Ok created, w') ->
  nextStatusOf bc build w = BuildRunning
  /\ errorOf bc build w = None
  /\ calls (synchronize bc build w) = [CreatePodCall podSpec]
  /\ world_after (synchronize bc build w) = w'
  /\ calls (syncBuild bc build w) =
       [CreatePodCall podSpec; UpdateBuildCall (set_Status BuildRunning build)].
Proof.
  intros Hs Hsome Hspec Hcreate.
  pose proof (synchronize_Pending_submitted bc build w _ _ Hs Hsome Hspec)
    as Hsync.
  rewrite Hcreate in Hsync.
  assert (Hnext : nextStatusOf bc build w = BuildRunning)
    by (unfold nextStatusOf; rewrite Hsync; reflexivity).
  split; [exact Hnext |].
  split; [unfold errorOf; rewrite Hsync; reflexivity |].
  split; [rewrite Hsync; reflexivity |].
  split; [rewrite Hsync; reflexivity |].
  rewrite syncBuild_calls, Hnext, Hs. unfold syncedBuild. rewrite Hsync.
  reflexivity.
Qed.

(** X3. A Pending build whose pod is refused with an error whose text does
    not contain "already exists" is moved to Failed with that error, and the
    loop writes Failed back after the one submission. *)
Theorem pending_submission_error_fails bc build w buildStrategy podSpec err w' :
  Status build = BuildPending ->
  buildStrategies bc !! Type_ (Input build) = Some buildStrategy ->
  CreateBuildPod buildStrategy build = Ok podSpec ->
  CreatePod (kubeClient bc) podSpec w = (Err err, w') ->
  Index (Error err) "already exists" = -1 ->
  nextStatusOf bc build w = BuildFailed
  /\ errorOf bc build w = Some err
  /\ calls (syncBuild bc build w) =
       [CreatePodCall podSpec; UpdateBuildCall (set_Status BuildFailed build)].
Proof.
  intros Hs Hsome Hspec Hcreate Hother.
  pose proof (synchronize_Pending_submitted bc build w _ _ Hs Hsome Hspec)
    as Hsync.
  rewrite Hcreate in Hsync.
  rewrite bool_decide_eq_false_2 in Hsync by (intros Hc; exact (Hc Hother)).
  assert (Hnext : nextStatusOf bc build w = BuildFailed)
    by (unfold nextStatusOf; rewrite Hsync; reflexivity).
  split; [exact Hnext |].
  split; [unfold errorOf; rewrite Hsync; reflexivity |].
  rewrite syncBuild_calls, Hnext, Hs. unfold syncedBuild. rewrite Hsync.
  reflexivity.
Qed.

(** X4. For a Running build that has not timed out and whose pod is fetched,
    the error returned is nil whatever the pod shows, and the status is one
    of Running, Complete and Failed; while the pod has not terminated the
    status stays Running and the loop writes nothing back, the fetch being
    its only call. *)
Theorem running_pod_not_terminated_stays_running bc build w pod w' :
  Status build = BuildRunning ->
  hasTimeoutElapsed (Now w) build (timeout bc) = false ->
  GetPod (kubeClient bc) (PodID build) w = (Ok pod, w') ->
  errorOf bc build w = None
  /\ (nextStatusOf bc build w = BuildRunning
      \/ nextStatusOf bc build w = BuildComplete
      \/ nextStatusOf bc build w = BuildFailed)
  /\ (PodState_Status (CurrentState pod) <> PodTerminated ->
      nextStatusOf bc build w = BuildRunning
      /\ calls (syncBuild bc build w) = [GetPodCall (PodID build)]).
Proof.
  intros Hs Htimeout Hget.
  pose proof (synchronize_Running_fetch bc build w Hs Htimeout) as Hsync.
  rewrite Hget in Hsync.
  split; [unfold errorOf; rewrite Hsync; reflexivity |]. split.
  - unfold nextStatusOf. rewrite Hsync. simpl.
    destruct (bool_decide (PodState_Status (CurrentState pod) <> PodTerminated));
      [left; reflexivity |].
    destruct (checkExitCodes_cases (Info (CurrentState pod)))
      as [[-> _] | [-> _]]; auto.
  - intros Halive.
    assert (Hnext : nextStatusOf bc build w = BuildRunning).
    { unfold nextStatusOf. rewrite Hsync. simpl.
      rewrite bool_decide_eq_true_2 by exact Halive. reflexivity. }
    split; [exact Hnext |].
    rewrite syncBuild_calls, Hnext, Hs, Hsync. reflexivity.
Qed.

(** X5. A build whose status is none of the six known ones is moved to Error,
    with an error naming the status, without any client call; the loop
    writes Error back, and from the build so written [synchronize] never
    moves again. *)
Theorem unknown_status_becomes_error bc build w raw :
  Status build = BuildStatusOther raw ->
  nextStatusOf bc build w = BuildError
  /\ (exists e, errorOf bc build w = Some e
                /\ Error e = "Invalid build status: " +:+ raw)
  /\ calls (syncBuild bc build w) =
       [UpdateBuildCall (set_Status BuildError build)]
  /\ (forall bc' w',
        nextStatusOf bc' (set_Status BuildError build) w' = BuildError).
Proof.
  intros Hs. pose proof (synchronize_unknown bc build w raw Hs) as Hsync.
  assert (Hnext : nextStatusOf bc build w = BuildError)
    by (unfold nextStatusOf; rewrite Hsync; reflexivity).
  split; [exact Hnext |]. split.
  { eexists. split; [unfold errorOf; rewrite Hsync; reflexivity |].
    apply Error_Errorf. }
  split.
  - rewrite syncBuild_calls, Hnext, Hs. unfold syncedBuild. rewrite Hsync.
    reflexivity.
  - intros bc' w'. unfold nextStatusOf.
    rewrite synchronize_absorbing by (right; right; reflexivity). reflexivity.
Qed.

(** X6. [synchronize] writes nothing of the build but its pod id, and that
    only for a New build: the id, the creation timestamp, the labels, the
    input and the stored status are as before, and a build that is not New
    comes back unchanged. *)
Theorem synchronize_writes_only_the_pod_id bc build w :
  ID (syncedBuild bc build w) = ID build
  /\ CreationTimestamp (syncedBuild bc build w) = CreationTimestamp build
  /\ Labels (syncedBuild bc build w) = Labels build
  /\ Input (syncedBuild bc build w) = Input build
  /\ Status (syncedBuild bc build w) = Status build
  /\ (Status build <> BuildNew -> syncedBuild bc build w = build).
Proof.
  destruct (synchronize_frame bc build w) as (Hid & Hts & Hl & Hin & Hsame).
  repeat split; try assumption. apply synchronize_keeps_Status.
Qed.

(** X7. One application of [synchronize] calls a client at most once: it
    calls none and leaves the world as it was, or it submits to [CreatePod]
    the pod its strategy produced for a Pending build, or it fetches with
    [GetPod] the pod of a Running build.  It never lists or updates builds. *)
Theorem synchronize_calls_one_client_at_most bc build w :
  (calls (synchronize bc build w) = []
   /\ world_after (synchronize bc build w) = w)
  \/ (Status build = BuildPending
      /\ exists buildStrategy podSpec,
           buildStrategies bc !! Type_ (Input build) = Some buildStrategy
           /\ CreateBuildPod buildStrategy build = Ok podSpec
           /\ calls (synchronize bc build w) = [CreatePodCall podSpec]
           /\ world_after (synchronize bc build w)
              = (CreatePod (kubeClient bc) podSpec w).2)
  \/ (Status build = BuildRunning
      /\ calls (synchronize bc build w) = [GetPodCall (PodID build)]
      /\ world_after (synchronize bc build w)
         = (GetPod (kubeClient bc) (PodID build) w).2).
Proof.
  destruct (Status build) eqn:Hs.
  - left. rewrite synchronize_New by exact Hs. split; reflexivity.
  - destruct (buildStrategies bc !! Type_ (Input build)) as [strategy |] eqn:Hl.
    + destruct (CreateBuildPod strategy build) as [podSpec | err] eqn:Hspec.
      * right; left. split; [reflexivity |]. exists strategy, podSpec.
        rewrite (synchronize_Pending_submitted _ _ _ _ _ Hs Hl Hspec).
        destruct (CreatePod (kubeClient bc) podSpec w).
        repeat split; assumption.
      * left. rewrite (synchronize_Pending_strategy_error _ _ _ _ _ Hs Hl Hspec).
        split; reflexivity.
    + left. rewrite (synchronize_Pending_unregistered _ _ _ Hs Hl).
      split; reflexivity.
  - destruct (hasTimeoutElapsed (Now w) build (timeout bc)) eqn:Htimeout.
    + left. rewrite (synchronize_Running_timedOut _ _ _ Hs Htimeout).
      split; reflexivity.
    + right; right. split; [reflexivity |].
      rewrite (synchronize_Running_fetch _ _ _ Hs Htimeout).
      destruct (GetPod (kubeClient bc) (PodID build) w). split; reflexivity.
  - left. rewrite synchronize_absorbing by (rewrite Hs; left; reflexivity).
    split; reflexivity.
  - left. rewrite synchronize_absorbing by (rewrite Hs; right; left; reflexivity).
    split; reflexivity.
  - left. rewrite synchronize_absorbing by (rewrite Hs; right; right; reflexivity).
    split; reflexivity.
  - left. rewrite (synchronize_unknown _ _ _ _ Hs). split; reflexivity.
Qed.

(** X8. No transition goes backwards.  With New before Pending, Pending
    before Running, and Running before Complete, Failed and Error, the status
    [synchronize] computes is never before the current one; it is never New
    and never a value outside the six statuses, and a New build always moves
    on. *)
Theorem status_never_regresses bc build w :
  (rank (Status build) <= rank (nextStatusOf bc build w))%nat
  /\ nextStatusOf bc build w <> BuildNew
  /\ (forall raw, nextStatusOf bc build w <> BuildStatusOther raw)
  /\ (Status build = BuildNew ->
      (rank (Status build) < rank (nextStatusOf bc build w))%nat).
Proof.
  destruct (synchronize_rank bc build w) as (Hmono & Hpos).
  split; [exact Hmono |].
  split; [intros Hc; rewrite Hc in Hpos; simpl in Hpos; lia |].
  split; [intros raw Hc; rewrite Hc in Hpos; simpl in Hpos; lia |].
  intros Hs. rewrite Hs. simpl. lia.
Qed.

(** *** Whole passes of [watchBuilds] *)

Lemma submissionsOf_length (trace : list Call) :
  (length (submissionsOf trace) <= length trace)%nat.
Proof.
  induction trace as [| call trace IH]; simpl; [lia |].
  destruct call; simpl; lia.
Qed.

Lemma submissionsOf_app (t1 t2 : list Call) :
  submissionsOf (t1 ++ t2) = submissionsOf t1 ++ submissionsOf t2.
Proof. apply omap_app. Qed.

Lemma synchronize_calls_bound bc build w :
  (length (calls (synchronize bc build w)) <= 1)%nat
  /\ ~ In ListBuildsCall (calls (synchronize bc build w)).
Proof.
  unfold calls. run_synchronize; simpl; (split; [lia |]);
    intros Hin; simpl in Hin; intuition discriminate.
Qed.

Lemma syncBuild_no_listing bc build w :
  ~ In ListBuildsCall (calls (syncBuild bc build w)).
Proof.
  rewrite syncBuild_calls, in_app_iff.
  destruct (synchronize_calls_bound bc build w) as (_ & Hno).
  intros [Hin | Hin]; [exact (Hno Hin) |].
  destruct (decide (nextStatusOf bc build w = Status build));
    simpl in Hin; intuition discriminate.
Qed.

Lemma syncBuild_bounds bc build w :
  (length (calls (syncBuild bc build w)) <= 2)%nat
  /\ (length (updatesOf (calls (syncBuild bc build w))) <= 1)%nat
  /\ (length (submissionsOf (calls (syncBuild bc build w))) <= 1)%nat.
Proof.
  destruct (synchronize_calls_bound bc build w) as (Hone & _).
  pose proof (submissionsOf_length (calls (synchronize bc build w))) as Hsub.
  split; [| split].
  - rewrite syncBuild_calls, length_app.
    destruct (decide (nextStatusOf bc build w = Status build)); simpl; lia.
  - rewrite syncBuild_updates.
    destruct (decide (nextStatusOf bc build w = Status build)); simpl; lia.
  - rewrite syncBuild_calls, submissionsOf_app, length_app.
    destruct (decide (nextStatusOf bc build w = Status build)); simpl; lia.
Qed.

Lemma syncBuilds_terminal bc (items : list Build) w :
  Forall (fun build => terminal (Status build)) items ->
  syncBuilds bc items w = (tt, w, []).
Proof.
  induction 1 as [| build items Hterminal _ IH]; [reflexivity |].
  simpl. unfold bind, syncBuild, bind.
  rewrite synchronize_absorbing by exact Hterminal.
  rewrite bool_decide_eq_false_2 by (intros Hc; exact (Hc eq_refl)).
  unfold ret. rewrite IH. reflexivity.
Qed.

(** X9. When the list call fails, the tick makes no other call, and
    [watchBuilds] returns at once: whatever instants are still to be
    delivered, the registry is not listed again and no build is touched. *)
Theorem failed_listing_ends_the_watch bc w err w0 :
  ListBuilds (osClient bc) w = (Err err, w0) ->
  tick bc w = (false, w0, [ListBuildsCall])
  /\ (forall (t : Time) (syncTime : list Time),
        watchBuilds bc (t :: syncTime) w = (tt, w0, [ListBuildsCall])).
Proof.
  intros Hlist.
  assert (Htick : tick bc w = (false, w0, [ListBuildsCall])).
  { unfold tick, bind, invoke, ret. rewrite Hlist. reflexivity. }
  split; [exact Htick |].
  intros t syncTime. simpl. unfold bind. rewrite Htick. reflexivity.
Qed.

(** X10. When the list call succeeds, the tick always ends with the watch
    still on, whatever errors [synchronize] or [UpdateBuild] returned for the
    builds of the list: the next instant delivered starts another tick in the
    world this pass left. *)
Theorem successful_listing_keeps_the_watch bc w (items : list Build) w0 :
  ListBuilds (osClient bc) w = (Ok items, w0) ->
  value (tick bc w) = true
  /\ world_after (tick bc w) = world_after (syncBuilds bc items w0)
  /\ (forall (t : Time) (syncTime : list Time),
        calls (watchBuilds bc (t :: syncTime) w) =
          ListBuildsCall :: calls (syncBuilds bc items w0) ++
          calls (watchBuilds bc syncTime
                   (world_after (syncBuilds bc items w0)))).
Proof.
  intros Hlist.
  assert (Htick : tick bc w =
            (true, world_after (syncBuilds bc items w0),
             ListBuildsCall :: calls (syncBuilds bc items w0))).
  { unfold tick, bind, invoke, ret, world_after, calls. rewrite Hlist.
    destruct (syncBuilds bc items w0) as [[u w1] t1]. simpl.
    rewrite app_nil_r. reflexivity. }
  split; [rewrite Htick; reflexivity |].
  split; [rewrite Htick; reflexivity |].
  intros t syncTime. unfold calls at 1. simpl. unfold bind. rewrite Htick.
  destruct (watchBuilds bc syncTime (world_after (syncBuilds bc items w0)))
    as [[u w2] t2]. reflexivity.
Qed.

(** X11. A pass over a list of builds writes back at most one build per
    build listed, submits at most one pod per build listed, makes at most
    two client calls per build listed, and never lists the registry. *)
Theorem pass_call_bounds bc (items : list Build) w :
  (length (updatesOf (calls (syncBuilds bc items w))) <= length items)%nat
  /\ (length (submissionsOf (calls (syncBuilds bc items w))) <= length items)%nat
  /\ (length (calls (syncBuilds bc items w)) <= 2 * length items)%nat
  /\ ~ In ListBuildsCall (calls (syncBuilds bc items w)).
Proof.
  revert w. induction items as [| build items IH]; intros w.
  - simpl. repeat split; try lia; intros [].
  - rewrite syncBuilds_cons.
    destruct (IH (world_after (syncBuild bc build w))) as (Hu & Hs & Hc & Hl).
    destruct (syncBuild_bounds bc build w) as (Hc1 & Hu1 & Hs1).
    rewrite updatesOf_app, submissionsOf_app, !length_app. simpl length.
    repeat split; try lia.
    rewrite in_app_iff. intros [Hin | Hin]; [| exact (Hl Hin)].
    exact (syncBuild_no_listing _ _ _ Hin).
Qed.

(** X12. A tick that lists only builds in status Complete, Failed or Error
    is quiet: the list call is its only call and the world is left as the
    list call left it. *)
Theorem terminal_builds_make_a_quiet_tick bc w (items : list Build) w0 :
  ListBuilds (osClient bc) w = (Ok items, w0) ->
  Forall (fun build => terminal (Status build)) items ->
  tick bc w = (true, w0, [ListBuildsCall]).
Proof.
  intros Hlist Hterminal. unfold tick, bind, invoke, ret. rewrite Hlist.
  rewrite (syncBuilds_terminal _ _ _ Hterminal). reflexivity.
Qed.

(** X13. Every build a pass writes back is one of the builds of the list
    with a new status: its id, creation timestamp, labels and input are
    those of the listed build, its status differs from the listed one and is
    not behind it, and its pod id is the listed one unless the listed build
    was New. *)
Theorem updates_come_from_listed_builds bc (items : list Build) w written :
  In written (updatesOf (calls (syncBuilds bc items w))) ->
  exists build,
    In build items
    /\ ID written = ID build
    /\ CreationTimestamp written = CreationTimestamp build
    /\ Labels written = Labels build
    /\ Input written = Input build
    /\ Status written <> Status build
    /\ (rank (Status build) <= rank (Status written))%nat
    /\ (Status build <> BuildNew -> PodID written = PodID build).
Proof.
  revert w. induction items as [| build items IH]; intros w.
  - intros [].
  - rewrite syncBuilds_cons, updatesOf_app, in_app_iff.
    intros [Hin | Hin].
    + exists build. split; [left; reflexivity |].
      rewrite syncBuild_updates in Hin.
      destruct (decide (nextStatusOf bc build w = Status build)) as [| Hne];
        [destruct Hin |].
      destruct Hin as [<- | []].
      destruct (synchronize_frame bc build w) as (Hid & Hts & Hl & Hi & Hsame).
      destruct (synchronize_rank bc build w) as (Hmono & _).
      simpl. repeat split; try assumption.
      intros Hnew. rewrite (Hsame Hnew). reflexivity.
    + destruct (IH _ Hin) as (b & Hb & Hrest).
      exists b. split; [right; exact Hb | exact Hrest].
Qed.

(** *** More on the timeout test *)

(** X14. The timeout test is monotone: once it holds for a build it holds at
    every later instant, and under every smaller timeout. *)
Theorem timeout_is_monotone (now now' : Time) build (limit limit' : Z) :
  now <= now' ->
  limit' <= limit ->
  hasTimeoutElapsed now build limit = true ->
  hasTimeoutElapsed now' build limit' = true.
Proof.
  intros Hnow Hlimit. rewrite !hasTimeoutElapsed_true, !int_Seconds.
  intros Hlate.
  assert (Z.quot (Since now (CreationTimestamp build)) Second
          <= Z.quot (Since now' (CreationTimestamp build)) Second).
  { apply Z.quot_le_mono; unfold Since, Second; lia. }
  lia.
Qed.


(** *** The conflict test *)

Lemma substring_prefix (sub post : string) :
  substring 0 (String.length sub) (sub +:+ post) = sub.
Proof.
  induction sub as [| c sub IH]; simpl.
  - destruct post; reflexivity.
  - rewrite IH. reflexivity.
Qed.

Lemma substring_middle (pre sub post : string) :
  substring (String.length pre) (String.length sub) (pre +:+ sub +:+ post) = sub.
Proof.
  induction pre as [| c pre IH];
    [exact (substring_prefix sub post) | simpl; exact IH].
Qed.

Lemma substring_0_split (s sub : string) :
  substring 0 (String.length sub) s = sub -> exists post, s = sub +:+ post.
Proof.
  revert s. induction sub as [| c sub IH]; intros s; simpl.
  - intros _. exists s. reflexivity.
  - destruct s as [| c' s]; [discriminate |].
    intros [= -> Hrest]. destruct (IH _ Hrest) as [post ->].
    exists post. reflexivity.
Qed.

Lemma substring_split (m : nat) (s sub : string) :
  substring m (String.length sub) s = sub ->
  exists pre post, s = pre +:+ sub +:+ post.
Proof.
  revert s. induction m as [| m IH]; intros s Hsub.
  - destruct (substring_0_split _ _ Hsub) as [post ->].
    exists "", post. reflexivity.
  - destruct s as [| c s].
    + simpl in Hsub. subst sub. exists "", "". reflexivity.
    + simpl in Hsub. destruct (IH _ Hsub) as (pre & post & ->).
      exists (String c pre), post. reflexivity.
Qed.

(** [strings.Index] finds a non-empty [substr] exactly in the strings that
    contain it. *)
Lemma Index_found (s substr : string) :
  substr <> "" ->
  Index s substr <> -1 <-> exists pre post, s = pre +:+ substr +:+ post.
Proof.
  intros Hne. unfold Index.
  destruct (String.index 0 substr s) as [m |] eqn:Hindex.
  - split; [intros _ | lia].
    apply (substring_split m). exact (index_correct1 _ _ _ _ Hindex).
  - split; [intros Hc; destruct (Hc eq_refl) |].
    intros (pre & post & ->).
    destruct (index_correct3 _ (String.length pre) _ _ Hindex Hne
                ltac:(apply Nat.le_0_l)).
    apply substring_middle.
Qed.

(** X16. Whether a refused submission counts as a conflict is decided by the
    text of the error alone: the Pending build stays Pending exactly when the
    text contains "already exists" somewhere, and is moved to Failed
    otherwise. *)
Theorem conflict_is_a_substring_test bc build w buildStrategy podSpec err w' :
  Status build = BuildPending ->
  buildStrategies bc !! Type_ (Input build) = Some buildStrategy ->
  CreateBuildPod buildStrategy build = Ok podSpec ->
  CreatePod (kubeClient bc) podSpec w = (Err err, w') ->
  (nextStatusOf bc build w = BuildPending <->
   exists pre post, Error err = pre +:+ "already exists" +:+ post)
  /\ (nextStatusOf bc build w = BuildFailed <->
      ~ exists pre post, Error err = pre +:+ "already exists" +:+ post).
Proof.
  intros Hs Hsome Hspec Hcreate.
  rewrite <- (Index_found (Error err) "already exists") by discriminate.
  unfold nextStatusOf.
  rewrite (synchronize_Pending_submitted _ _ _ _ _ Hs Hsome Hspec), Hcreate.
  simpl.
  destruct (decide (Index (Error err) "already exists" = -1)) as [Heq | Hne].
  - rewrite bool_decide_eq_false_2 by (intros Hc; exact (Hc Heq)).
    split; split; try discriminate; try contradiction; auto.
  - rewrite bool_decide_eq_true_2 by exact Hne.
    split; split; try discriminate; try contradiction; auto.
Qed.

End Properties.

(** ** Properties of the storage adapters *)

Lemma length_zero_empty (s : string) : String.length s = 0%nat <-> s = "".
Proof. destruct s; simpl; split; intros Hs; congruence. Qed.

Section ProjectProperties.

Context {error : Type} `{GoError error} `{project.Imports error}.
Context {World : Type} `{Clock World}.

Implicit Types (s : project.REST error World) (p : project.Project) (w : World).

(** [Create] on a project, in terms of the project it has prepared. *)
Lemma project_Create_project s p w :
  project.Create s (project.ProjectObject p) w =
    if bool_decide
         (0 < length (project.ValidateProject (project.prepared p (Now w))))%nat
    then (None,
          Some (project.NewInvalid "project" (project.ID p)
                  (project.ValidateProject (project.prepared p (Now w)))))
    else
      (Some (MakeAsync
               (let? failed :=
                  perform (project.CreateProjectCall (project.prepared p (Now w)))
                    (project.CreateProject (project.registry s)
                       (project.prepared p (Now w))) in
                match failed with
                | Some err => finish (None, Some err)
                | None => project.Get s (project.ID p)
                end)),
       None).
Proof.
  unfold project.Create, project.prepared.
  destruct (bool_decide (String.length (project.Namespace p) = 0%nat));
    reflexivity.
Qed.

(** X17. [Create] of the project storage hands back a channel exactly when
    the object is a project whose validation, after the namespace has been
    defaulted and the creation timestamp set, reports no error; in every
    other case it hands back an error and no channel, so nothing reaches the
    registry. *)
Theorem project_create_gate s (obj : project.Object) w :
  ((exists work, project.Create s obj w = (Some work, None)) <->
   (exists p, obj = project.ProjectObject p
              /\ project.ValidateProject (project.prepared p (Now w)) = []))
  /\ ((exists err, project.Create s obj w = (None, Some err)) <->
      ~ (exists p, obj = project.ProjectObject p
                   /\ project.ValidateProject (project.prepared p (Now w)) = [])).
Proof.
  destruct obj as [p | ps | st | other];
    try (split; split;
         [ intros [? Hc]; discriminate Hc
         | intros (p & Hc & _); discriminate Hc
         | intros _; intros (p & Hc & _); discriminate Hc
         | intros _; eexists; reflexivity ]).
  rewrite project_Create_project.
  destruct (project.ValidateProject (project.prepared p (Now w))) as [| e errs]
    eqn:Hvalid.
  - rewrite bool_decide_eq_false_2 by (simpl; lia). split; split.
    + intros _. exists p. split; [reflexivity | exact Hvalid].
    + intros _. eexists. reflexivity.
    + intros [err Hc]. discriminate Hc.
    + intros Hc. destruct Hc. exists p. split; [reflexivity | exact Hvalid].
  - rewrite bool_decide_eq_true_2 by (simpl; lia). split; split.
    + intros [work Hc]. discriminate Hc.
    + intros (q & [= <-] & Hc). rewrite Hvalid in Hc. discriminate Hc.
    + intros _ (q & [= <-] & Hc). rewrite Hvalid in Hc. discriminate Hc.
    + intros _. eexists. reflexivity.
Qed.

(** X18. When [Create] of the project storage hands back a channel, the work
    behind it stores the prepared project: the id is the caller's, the
    namespace is the caller's or, when that is empty, the id, and the
    creation timestamp is the instant of the call to [Create], not the one
    the caller supplied.  The work calls [CreateProject] first; when that
    fails it returns the error without reading the project back, otherwise
    it answers with what [GetProject] returns for the id. *)
Theorem project_create_stores_prepared_project s p w work :
  project.Create s (project.ProjectObject p) w = (Some work, None) ->
  project.ID (project.prepared p (Now w)) = project.ID p
  /\ (project.Namespace p <> "" ->
      project.Namespace (project.prepared p (Now w)) = project.Namespace p)
  /\ (project.Namespace p = "" ->
      project.Namespace (project.prepared p (Now w)) = project.ID p)
  /\ project.CreationTimestamp (project.prepared p (Now w)) = Now w
  /\ project.Payload (project.prepared p (Now w)) = project.Payload p
  /\ (forall w1,
        work w1 =
          match project.CreateProject (project.registry s)
                  (project.prepared p (Now w)) w1 with
          | (Some err, w2) =>
              ((None, Some err), w2,
               [project.CreateProjectCall (project.prepared p (Now w))])
          | (None, w2) =>
              match project.GetProject (project.registry s) (project.ID p) w2 with
              | (Err err, w3) =>
                  ((None, Some err), w3,
                   [project.CreateProjectCall (project.prepared p (Now w));
                    project.GetProjectCall (project.ID p)])
              | (Ok stored, w3) =>
                  ((Some (project.ProjectObject stored), None), w3,
                   [project.CreateProjectCall (project.prepared p (Now w));
                    project.GetProjectCall (project.ID p)])
              end
          end).
Proof.
  rewrite project_Create_project.
  destruct (bool_decide
              (0 < length (project.ValidateProject (project.prepared p (Now w))))%nat);
    [discriminate |].
  intros [= <-].
  split; [reflexivity |]. split.
  { intros Hne. unfold project.prepared. simpl.
    rewrite bool_decide_eq_false_2; [reflexivity |].
    rewrite length_zero_empty. exact Hne. }
  split.
  { intros Hempty. unfold project.prepared. simpl.
    rewrite bool_decide_eq_true_2; [reflexivity |].
    rewrite length_zero_empty. exact Hempty. }
  split; [reflexivity |]. split; [reflexivity |].
  intros w1. unfold MakeAsync, andThen, perform, finish, project.Get.
  destruct (project.CreateProject (project.registry s)
              (project.prepared p (Now w)) w1) as [[err |] w2];
    [reflexivity |].
  unfold andThen, perform, finish.
  destruct (project.GetProject (project.registry s) (project.ID p) w2)
    as [[stored | err] w3]; reflexivity.
Qed.

End ProjectProperties.

Section ClientAuthorizationProperties.

Context {error : Type} `{GoError error} `{clientauthorization.Imports}.
Context {World : Type} `{Clock World}.

Implicit Types (s : clientauthorization.REST error World)
  (a : clientauthorization.ClientAuthorization) (w : World).

(** X19. [Create] of the client authorization storage hands back a channel
    exactly when the object is a client authorization whose user name and
    client name are both non-empty; otherwise it hands back an error and no
    channel.  [Update] goes through the same gate, being [Create]. *)
Theorem authorization_create_gate s (obj : clientauthorization.Object) w :
  ((exists work, clientauthorization.Create s obj w = (Some work, None)) <->
   (exists a, obj = clientauthorization.ClientAuthorizationObject a
              /\ clientauthorization.UserName a <> ""
              /\ clientauthorization.ClientName a <> ""))
  /\ ((exists err, clientauthorization.Create s obj w = (None, Some err)) <->
      ~ (exists a, obj = clientauthorization.ClientAuthorizationObject a
                   /\ clientauthorization.UserName a <> ""
                   /\ clientauthorization.ClientName a <> ""))
  /\ clientauthorization.Update s obj w = clientauthorization.Create s obj w.
Proof.
  split; [| split; [| reflexivity]].
  - destruct obj as [a | st | other]; simpl;
      try (split; [intros [? Hc]; discriminate Hc
                  | intros (a & Hc & _); discriminate Hc]).
    destruct (decide (clientauthorization.UserName a = "")) as [Hu | Hu];
      destruct (decide (clientauthorization.ClientName a = "")) as [Hc | Hc];
      rewrite ?(bool_decide_eq_true_2 _ Hu), ?(bool_decide_eq_false_2 _ Hu),
              ?(bool_decide_eq_true_2 _ Hc), ?(bool_decide_eq_false_2 _ Hc);
      simpl; split;
      try (intros [? Hd]; discriminate Hd);
      try (intros (a' & [= <-] & Hu' & Hc'); contradiction).
    + intros _. exists a. auto.
    + intros _. eexists. reflexivity.
  - destruct obj as [a | st | other]; simpl;
      try (split; [intros _ (a & Hc & _); discriminate Hc
                  | intros _; eexists; reflexivity]).
    destruct (decide (clientauthorization.UserName a = "")) as [Hu | Hu];
      destruct (decide (clientauthorization.ClientName a = "")) as [Hc | Hc];
      rewrite ?(bool_decide_eq_true_2 _ Hu), ?(bool_decide_eq_false_2 _ Hu),
              ?(bool_decide_eq_true_2 _ Hc), ?(bool_decide_eq_false_2 _ Hc);
      simpl; split;
      try (intros _; eexists; reflexivity);
      try (intros _ (a' & [= <-] & Hu' & Hc'); contradiction).
    + intros [err Hd]. discriminate Hd.
    + intros Hd. destruct Hd. exists a. auto.
Qed.

(** X20. When [Create] of the client authorization storage hands back a
    channel, the authorization the work stores is named by the registry
    after its user and client, whatever id the caller supplied; it is
    stamped with the instant of the call and keeps the names, the user uid
    and the scopes.  The work calls [CreateClientAuthorization] first; when
    that fails it returns the error without reading back, otherwise it
    answers with what [GetClientAuthorization] returns for the new id. *)
Theorem authorization_create_names_the_authorization s a w work :
  clientauthorization.Create s (clientauthorization.ClientAuthorizationObject a) w
  = (Some work, None) ->
  exists stored,
    clientauthorization.ID stored =
      clientauthorization.ClientAuthorizationID (clientauthorization.registry s)
        (clientauthorization.UserName a) (clientauthorization.ClientName a)
    /\ clientauthorization.CreationTimestamp stored = Now w
    /\ clientauthorization.ClientName stored = clientauthorization.ClientName a
    /\ clientauthorization.UserName stored = clientauthorization.UserName a
    /\ clientauthorization.UserUID stored = clientauthorization.UserUID a
    /\ clientauthorization.Scopes stored = clientauthorization.Scopes a
    /\ (forall w1,
          work w1 =
            match clientauthorization.CreateClientAuthorization
                    (clientauthorization.registry s) stored w1 with
            | (Some err, w2) =>
                ((None, Some err), w2,
                 [clientauthorization.CreateClientAuthorizationCall stored])
            | (None, w2) =>
                match clientauthorization.GetClientAuthorization
                        (clientauthorization.registry s)
                        (clientauthorization.ID stored) w2 with
                | (Err err, w3) =>
                    ((None, Some err), w3,
                     [clientauthorization.CreateClientAuthorizationCall stored;
                      clientauthorization.GetClientAuthorizationCall
                        (clientauthorization.ID stored)])
                | (Ok found, w3) =>
                    ((Some (clientauthorization.ClientAuthorizationObject found),
                      None), w3,
                     [clientauthorization.CreateClientAuthorizationCall stored;
                      clientauthorization.GetClientAuthorizationCall
                        (clientauthorization.ID stored)])
                end
            end).
Proof.
  unfold clientauthorization.Create.
  destruct (bool_decide (clientauthorization.UserName a = "")
            || bool_decide (clientauthorization.ClientName a = ""));
    [discriminate |].
  intros [= <-].
  exists {| clientauthorization.ID :=
              clientauthorization.ClientAuthorizationID
                (clientauthorization.registry s)
                (clientauthorization.UserName a) (clientauthorization.ClientName a);
            clientauthorization.CreationTimestamp := Now w;
            clientauthorization.ClientName := clientauthorization.ClientName a;
            clientauthorization.UserName := clientauthorization.UserName a;
            clientauthorization.UserUID := clientauthorization.UserUID a;
            clientauthorization.Scopes := clientauthorization.Scopes a |}.
  do 6 (split; [reflexivity |]).
  intros w1.
  unfold MakeAsync, andThen, perform, finish, clientauthorization.Get.
  match goal with
  | |- context [clientauthorization.CreateClientAuthorization ?r ?x w1] =>
      destruct (clientauthorization.CreateClientAuthorization r x w1)
        as [[err |] w2]
  end; [reflexivity |].
  unfold andThen, perform, finish. simpl.
  match goal with
  | |- context [clientauthorization.GetClientAuthorization ?r ?i w2] =>
      destruct (clientauthorization.GetClientAuthorization r i w2)
        as [[found | err] w3]
  end; reflexivity.
Qed.

End ClientAuthorizationProperties.

(** ** The properties on the in-memory cluster *)

Module Scenarios.
Import Fake.

(** The scenario of the specification: [b1] of type "T" goes from New to
    Pending with pod id "build-T-b1" in the first tick, to Running in the
    second, and to Complete in the third once its pod has terminated with
    exit code 0. *)
Example three_ticks :
  let bc := controller 600 in
  let w1 := world_after (tick bc (world 0 [b1_new] [])) in
  let w2 := world_after (tick bc w1) in
  let w3 :=
    world_after (tick bc (terminate "build-T-b1" {[ "sti-build" := exited 0 ]} w2)) in
  builds w1 = [b1_pending]
  /\ builds w2 = [b1_running]
  /\ builds w3 = [b1_complete]
  /\ calls (tick bc w3) = [ListBuildsCall].
Proof. vm_compute. repeat split. Qed.

Lemma new_build_becomes_pending_witness :
  Status b1_new = BuildNew
  /\ nextStatusOf (controller 600) b1_new (world 0 [b1_new] []) = BuildPending
  /\ PodID (syncedBuild (controller 600) b1_new (world 0 [b1_new] []))
     = "build-T-b1".
Proof.
  split; [reflexivity |].
  destruct (new_build_becomes_pending (controller 600) b1_new
              (world 0 [b1_new] []) eq_refl) as (Hnext & Hid & _).
  split; [exact Hnext | exact Hid].
Defined.

Lemma pending_conflict_stays_pending_witness :
  Status b1_pending = BuildPending
  /\ Index (Error (alreadyExists "build-T-b1")) "already exists" <> -1
  /\ nextStatusOf (controller 600) b1_pending
       (world 0 [b1_pending] [runningPod]) = BuildPending
  /\ updatesOf (calls (syncBuild (controller 600) b1_pending
                         (world 0 [b1_pending] [runningPod]))) = [].
Proof.
  assert (Hconflict :
    Index (Error (alreadyExists "build-T-b1")) "already exists" <> -1)
    by (vm_compute; discriminate).
  split; [reflexivity |]. split; [exact Hconflict |].
  destruct (pending_conflict_stays_pending (controller 600) b1_pending
              (world 0 [b1_pending] [runningPod]) strategy
              (pod "build-T-b1" PodWaiting ∅) (alreadyExists "build-T-b1")
              (world 0 [b1_pending] [runningPod])
              eq_refl eq_refl eq_refl eq_refl Hconflict)
    as (Hnext & _ & _ & _ & Hquiet).
  split; [exact Hnext | exact Hquiet].
Defined.

Lemma terminal_statuses_are_absorbing_witness :
  terminal (Status b3_failed)
  /\ nextStatusOf (controller 600) b3_failed (world 0 [b3_failed] []) = BuildFailed
  /\ calls (syncBuild (controller 600) b3_failed (world 0 [b3_failed] [])) = [].
Proof.
  assert (Hterminal : terminal (Status b3_failed))
    by (right; left; reflexivity).
  split; [exact Hterminal |].
  destruct (terminal_statuses_are_absorbing (controller 600) b3_failed
              (world 0 [b3_failed] []) Hterminal)
    as (Hnext & _ & _ & _ & _ & _ & Hquiet).
  split; [exact Hnext | exact Hquiet].
Defined.

Lemma pending_without_strategy_errors_witness :
  Status b2_pending = BuildPending
  /\ buildStrategies (controller 600) !! Type_ (Input b2_pending) = None
  /\ nextStatusOf (controller 600) b2_pending (world 0 [b2_pending] []) = BuildError
  /\ submissionsOf (calls (syncBuild (controller 600) b2_pending
                             (world 0 [b2_pending] []))) = [].
Proof.
  split; [reflexivity |]. split; [reflexivity |].
  destruct (pending_without_strategy_errors (controller 600) b2_pending
              (world 0 [b2_pending] []) eq_refl eq_refl)
    as (Hnext & _ & _ & _ & Hnone).
  split; [exact Hnext | exact Hnone].
Defined.

Lemma running_fetch_failure_stays_running_witness :
  Status b1_running = BuildRunning
  /\ hasTimeoutElapsed (Now (world (seconds 5) [b1_running] [])) b1_running
       (timeout (controller 600)) = false
  /\ GetPod (kubeClient (controller 600)) (PodID b1_running)
       (world (seconds 5) [b1_running] [])
     = (Err (notFound "build-T-b1"), world (seconds 5) [b1_running] [])
  /\ nextStatusOf (controller 600) b1_running
       (world (seconds 5) [b1_running] []) = BuildRunning.
Proof.
  assert (Hearly :
    hasTimeoutElapsed (Now (world (seconds 5) [b1_running] [])) b1_running
      (timeout (controller 600)) = false) by (vm_compute; reflexivity).
  split; [reflexivity |]. split; [exact Hearly |]. split; [reflexivity |].
  destruct (running_fetch_failure_stays_running (controller 600) b1_running
              (world (seconds 5) [b1_running] []) (notFound "build-T-b1")
              (world (seconds 5) [b1_running] []) eq_refl Hearly eq_refl)
    as (Hnext & _).
  exact Hnext.
Defined.

Lemma update_only_on_status_change_witness :
  ListBuilds (osClient (controller 600)) (world 0 [b3_failed; b1_new] [])
  = (Ok ([b3_failed] ++ b1_new :: []), world 0 [b3_failed; b1_new] [])
  /\ updatesOf (calls (syncBuild (controller 600) b1_new
                         (world_after
                            (syncBuilds (controller 600) [b3_failed]
                               (world 0 [b3_failed; b1_new] [])))))
     = [b1_pending].
Proof.
  split; [reflexivity |].
  destruct (update_only_on_status_change (controller 600)
              (world 0 [b3_failed; b1_new] []) (world 0 [b3_failed; b1_new] [])
              [b3_failed] [] b1_new eq_refl) as (_ & _ & Hchanged).
  rewrite Hchanged by (vm_compute; discriminate). reflexivity.
Defined.

(** C3 as stated fails: the pod of [b1] has terminated and its one sub-task
    left no termination record, so that sub-task reports no exit code, let
    alone exit code 0; the build is nevertheless judged Complete. *)
Lemma complete_without_exit_code :
  Status b1_running = BuildRunning
  /\ GetPod (kubeClient (controller 600)) (PodID b1_running)
       (world 0 [b1_running] [silentPod])
     = (Ok silentPod, world 0 [b1_running] [silentPod])
  /\ PodState_Status (CurrentState silentPod) = PodTerminated
  /\ nextStatusOf (controller 600) b1_running
       (world 0 [b1_running] [silentPod]) = BuildComplete
  /\ ~ (forall name status,
          Info (CurrentState silentPod) !! name = Some status ->
          reportsExitCode status 0).
Proof.
  split; [reflexivity |]. split; [reflexivity |]. split; [reflexivity |].
  split; [vm_compute; reflexivity |].
  intros Hall.
  destruct (Hall "sti-build" noRecord eq_refl) as (termination & Hrecord & _).
  discriminate Hrecord.
Qed.

Lemma terminated_pod_exit_codes_witness :
  Status b1_running = BuildRunning
  /\ GetPod (kubeClient (controller 600)) (PodID b1_running)
       (world 0 [b1_running] [mixedPod])
     = (Ok mixedPod, world 0 [b1_running] [mixedPod])
  /\ PodState_Status (CurrentState mixedPod) = PodTerminated
  /\ reportsExitCode (exited 0) 0
  /\ reportsFailure (exited 2)
  /\ nextStatusOf (controller 600) b1_running
       (world 0 [b1_running] [mixedPod]) = BuildFailed.
Proof.
  assert (Hfail : reportsFailure (exited 2)).
  { exists 2. split; [| discriminate].
    exists {| ExitCode := 2 |}. split; reflexivity. }
  split; [reflexivity |]. split; [reflexivity |]. split; [reflexivity |].
  split; [exists {| ExitCode := 0 |}; split; reflexivity |].
  split; [exact Hfail |].
  destruct (terminated_pod_exit_codes (controller 600) b1_running
              (world 0 [b1_running] [mixedPod]) mixedPod
              (world 0 [b1_running] [mixedPod]) eq_refl eq_refl eq_refl)
    as (_ & Hany & _).
  exact (Hany "sidecar" (exited 2) eq_refl Hfail).
Defined.

(** C4 as stated fails: ten and a half seconds after creation the elapsed
    time exceeds a timeout of ten seconds and the pod is still running, yet
    the build stays Running and no error is returned. *)
Lemma half_a_second_late_is_not_timed_out :
  Status b1_running = BuildRunning
  /\ (inject_Z (timeout (controller 10)) <
      Seconds (Since (Now halfSecondLate) (CreationTimestamp b1_running)))%Q
  /\ GetPod (kubeClient (controller 10)) (PodID b1_running) halfSecondLate
     = (Ok runningPod, halfSecondLate)
  /\ PodState_Status (CurrentState runningPod) <> PodTerminated
  /\ nextStatusOf (controller 10) b1_running halfSecondLate = BuildRunning
  /\ errorOf (controller 10) b1_running halfSecondLate = None.
Proof.
  split; [reflexivity |]. split; [reflexivity |]. split; [reflexivity |].
  split; [discriminate |]. split; vm_compute; reflexivity.
Qed.

Lemma running_timeout_fails_witness :
  Status b1_running = BuildRunning
  /\ timeout (controller 600) <
     int (Seconds (Since (Now hourLateRunning) (CreationTimestamp b1_running)))
  /\ GetPod (kubeClient (controller 600)) (PodID b1_running) hourLateRunning
     = (Ok runningPod, hourLateRunning)
  /\ PodState_Status (CurrentState runningPod) <> PodTerminated
  /\ nextStatusOf (controller 600) b1_running hourLateRunning = BuildFailed
  /\ errorOf (controller 600) b1_running hourLateRunning
     = Some (Errorf "Build timed out")
  /\ calls (synchronize (controller 600) b1_running hourLateRunning) = [].
Proof.
  assert (Hlate : timeout (controller 600) <
                  int (Seconds (Since (Now hourLateRunning)
                                  (CreationTimestamp b1_running))))
    by (vm_compute; reflexivity).
  split; [reflexivity |]. split; [exact Hlate |]. split; [reflexivity |].
  split; [discriminate |].
  destruct (running_timeout_fails (controller 600) b1_running hourLateRunning
              eq_refl Hlate) as (Hnext & Herr & Hquiet & _).
  split; [exact Hnext |]. split; [exact Herr | exact Hquiet].
Defined.

(** C9 as stated fails: an hour after its creation, with a timeout of ten
    minutes, the pod of [b1] has terminated and no sub-task reports an exit
    code other than 0, yet the build is judged Failed, not Complete. *)
Lemma timed_out_despite_clean_exit :
  Status b1_running = BuildRunning
  /\ GetPod (kubeClient (controller 600)) (PodID b1_running) hourLate
     = (Ok silentPod, hourLate)
  /\ PodState_Status (CurrentState silentPod) = PodTerminated
  /\ (forall name status,
        Info (CurrentState silentPod) !! name = Some status ->
        ~ reportsFailure status)
  /\ nextStatusOf (controller 600) b1_running hourLate = BuildFailed
  /\ nextStatusOf (controller 600) b1_running hourLate <> BuildComplete.
Proof.
  split; [reflexivity |]. split; [reflexivity |]. split; [reflexivity |].
  split.
  - intros name status Hlookup (code & (termination & Hrecord & _) & _).
    unfold silentPod, pod in Hlookup. simpl in Hlookup.
    apply lookup_singleton_Some in Hlookup as [_ <-]. discriminate Hrecord.
  - split; vm_compute; [reflexivity | discriminate].
Qed.

Lemma missing_termination_counts_as_success_witness :
  Status b1_running = BuildRunning
  /\ hasTimeoutElapsed (Now (world (seconds 5) [b1_running] [silentPod]))
       b1_running (timeout (controller 600)) = false
  /\ GetPod (kubeClient (controller 600)) (PodID b1_running)
       (world (seconds 5) [b1_running] [silentPod])
     = (Ok silentPod, world (seconds 5) [b1_running] [silentPod])
  /\ PodState_Status (CurrentState silentPod) = PodTerminated
  /\ (forall name status,
        Info (CurrentState silentPod) !! name = Some status ->
        Termination (State status) = None \/ reportsExitCode status 0)
  /\ nextStatusOf (controller 600) b1_running
       (world (seconds 5) [b1_running] [silentPod]) = BuildComplete.
Proof.
  assert (Hearly :
    hasTimeoutElapsed (Now (world (seconds 5) [b1_running] [silentPod]))
      b1_running (timeout (controller 600)) = false)
    by (vm_compute; reflexivity).
  assert (Hsilent : forall name status,
    Info (CurrentState silentPod) !! name = Some status ->
    Termination (State status) = None \/ reportsExitCode status 0).
  { intros name status Hlookup.
    unfold silentPod, pod in Hlookup. simpl in Hlookup.
    apply lookup_singleton_Some in Hlookup as [_ <-]. left. reflexivity. }
  split; [reflexivity |]. split; [exact Hearly |]. split; [reflexivity |].
  split; [reflexivity |]. split; [exact Hsilent |].
  exact (missing_termination_counts_as_success (controller 600) b1_running
           (world (seconds 5) [b1_running] [silentPod]) silentPod
           (world (seconds 5) [b1_running] [silentPod])
           eq_refl Hearly eq_refl eq_refl Hsilent).
Defined.


(** *** The further properties on the in-memory cluster *)

Lemma pending_strategy_error_fails_witness :
  Status b1_pending = BuildPending
  /\ buildStrategies (controllerOf os kube brokenStrategy)
       !! Type_ (Input b1_pending) = Some brokenStrategy
  /\ nextStatusOf (controllerOf os kube brokenStrategy) b1_pending
       (world 0 [b1_pending] []) = BuildFailed
  /\ calls (synchronize (controllerOf os kube brokenStrategy) b1_pending
              (world 0 [b1_pending] [])) = [].
Proof.
  split; [reflexivity |]. split; [reflexivity |].
  destruct (pending_strategy_error_fails (controllerOf os kube brokenStrategy)
              b1_pending (world 0 [b1_pending] []) brokenStrategy
              {| text := "no builder image";
                 rendering := "&errors.errorString{...}" |}
              eq_refl eq_refl eq_refl) as (Hnext & _ & Hquiet & _).
  split; [exact Hnext | exact Hquiet].
Defined.

Lemma pending_submission_starts_running_witness :
  Status b1_pending = BuildPending
  /\ CreatePod (kubeClient (controller 600)) (pod "build-T-b1" PodWaiting ∅)
       (world 0 [b1_pending] [])
     = (Ok (pod "build-T-b1" PodWaiting ∅),
        world 0 [b1_pending] [pod "build-T-b1" PodWaiting ∅])
  /\ nextStatusOf (controller 600) b1_pending (world 0 [b1_pending] [])
     = BuildRunning
  /\ calls (syncBuild (controller 600) b1_pending (world 0 [b1_pending] []))
     = [CreatePodCall (pod "build-T-b1" PodWaiting ∅);
        UpdateBuildCall b1_running].
Proof.
  assert (Hcreate :
    CreatePod (kubeClient (controller 600)) (pod "build-T-b1" PodWaiting ∅)
      (world 0 [b1_pending] [])
    = (Ok (pod "build-T-b1" PodWaiting ∅),
       world 0 [b1_pending] [pod "build-T-b1" PodWaiting ∅]))
    by (vm_compute; reflexivity).
  split; [reflexivity |]. split; [exact Hcreate |].
  destruct (pending_submission_starts_running (controller 600) b1_pending
              (world 0 [b1_pending] []) strategy
              (pod "build-T-b1" PodWaiting ∅) _ _
              eq_refl eq_refl eq_refl Hcreate)
    as (Hnext & _ & _ & _ & Hcalls).
  split; [exact Hnext | exact Hcalls].
Defined.

Lemma pending_submission_error_fails_witness :
  Status b1_pending = BuildPending
  /\ CreatePod (kubeClient (controllerOf os refusingKube strategy))
       (pod "build-T-b1" PodWaiting ∅) (world 0 [b1_pending] [])
     = (Err quotaExceeded, world 0 [b1_pending] [])
  /\ Index (Error quotaExceeded) "already exists" = -1
  /\ nextStatusOf (controllerOf os refusingKube strategy) b1_pending
       (world 0 [b1_pending] []) = BuildFailed
  /\ errorOf (controllerOf os refusingKube strategy) b1_pending
       (world 0 [b1_pending] []) = Some quotaExceeded.
Proof.
  assert (Hother : Index (Error quotaExceeded) "already exists" = -1)
    by (vm_compute; reflexivity).
  split; [reflexivity |]. split; [reflexivity |]. split; [exact Hother |].
  destruct (pending_submission_error_fails
              (controllerOf os refusingKube strategy) b1_pending
              (world 0 [b1_pending] []) strategy
              (pod "build-T-b1" PodWaiting ∅) quotaExceeded
              (world 0 [b1_pending] []) eq_refl eq_refl eq_refl eq_refl Hother)
    as (Hnext & Herr & _).
  split; [exact Hnext | exact Herr].
Defined.

Lemma running_pod_not_terminated_stays_running_witness :
  Status b1_running = BuildRunning
  /\ hasTimeoutElapsed (Now (world (seconds 5) [b1_running] [runningPod]))
       b1_running (timeout (controller 600)) = false
  /\ GetPod (kubeClient (controller 600)) (PodID b1_running)
       (world (seconds 5) [b1_running] [runningPod])
     = (Ok runningPod, world (seconds 5) [b1_running] [runningPod])
  /\ PodState_Status (CurrentState runningPod) <> PodTerminated
  /\ nextStatusOf (controller 600) b1_running
       (world (seconds 5) [b1_running] [runningPod]) = BuildRunning
  /\ calls (syncBuild (controller 600) b1_running
              (world (seconds 5) [b1_running] [runningPod]))
     = [GetPodCall "build-T-b1"].
Proof.
  assert (Hearly :
    hasTimeoutElapsed (Now (world (seconds 5) [b1_running] [runningPod]))
      b1_running (timeout (controller 600)) = false)
    by (vm_compute; reflexivity).
  assert (Halive : PodState_Status (CurrentState runningPod) <> PodTerminated)
    by discriminate.
  split; [reflexivity |]. split; [exact Hearly |]. split; [reflexivity |].
  split; [exact Halive |].
  destruct (running_pod_not_terminated_stays_running (controller 600) b1_running
              (world (seconds 5) [b1_running] [runningPod]) runningPod
              (world (seconds 5) [b1_running] [runningPod])
              eq_refl Hearly eq_refl) as (_ & _ & Hstay).
  destruct (Hstay Halive) as (Hnext & Hcalls).
  split; [exact Hnext | exact Hcalls].
Defined.

Lemma unknown_status_becomes_error_witness :
  Status b4_unknown = BuildStatusOther "paused"
  /\ nextStatusOf (controller 600) b4_unknown (world 0 [b4_unknown] [])
     = BuildError
  /\ calls (syncBuild (controller 600) b4_unknown (world 0 [b4_unknown] []))
     = [UpdateBuildCall (set_Status BuildError b4_unknown)].
Proof.
  split; [reflexivity |].
  destruct (unknown_status_becomes_error (controller 600) b4_unknown
              (world 0 [b4_unknown] []) "paused" eq_refl)
    as (Hnext & _ & Hcalls & _).
  split; [exact Hnext | exact Hcalls].
Defined.

Lemma failed_listing_ends_the_watch_witness :
  ListBuilds (osClient (controllerOf brokenOs kube strategy))
    (world 0 [b1_new] [])
  = (Err unreachable, world 0 [b1_new] [])
  /\ watchBuilds (controllerOf brokenOs kube strategy)
       [seconds 1; seconds 2; seconds 3] (world 0 [b1_new] [])
     = (tt, world 0 [b1_new] [], [ListBuildsCall]).
Proof.
  split; [reflexivity |].
  destruct (failed_listing_ends_the_watch (controllerOf brokenOs kube strategy)
              (world 0 [b1_new] []) unreachable (world 0 [b1_new] []) eq_refl)
    as (_ & Hwatch).
  exact (Hwatch (seconds 1) [seconds 2; seconds 3]).
Defined.

Lemma successful_listing_keeps_the_watch_witness :
  ListBuilds (osClient (controllerOf os refusingKube strategy))
    (world 0 [b1_pending] [])
  = (Ok [b1_pending], world 0 [b1_pending] [])
  /\ value (tick (controllerOf os refusingKube strategy)
              (world 0 [b1_pending] [])) = true.
Proof.
  split; [reflexivity |].
  destruct (successful_listing_keeps_the_watch
              (controllerOf os refusingKube strategy)
              (world 0 [b1_pending] []) [b1_pending]
              (world 0 [b1_pending] []) eq_refl) as (Hon & _).
  exact Hon.
Defined.

Lemma terminal_builds_make_a_quiet_tick_witness :
  ListBuilds (osClient (controller 600)) (world 0 [b3_failed; b1_complete] [])
  = (Ok [b3_failed; b1_complete], world 0 [b3_failed; b1_complete] [])
  /\ Forall (fun build => terminal (Status build)) [b3_failed; b1_complete]
  /\ tick (controller 600) (world 0 [b3_failed; b1_complete] [])
     = (true, world 0 [b3_failed; b1_complete] [], [ListBuildsCall]).
Proof.
  assert (Hterminal :
    Forall (fun build => terminal (Status build)) [b3_failed; b1_complete]).
  { constructor; [right; left; reflexivity |].
    constructor; [left; reflexivity | constructor]. }
  split; [reflexivity |]. split; [exact Hterminal |].
  exact (terminal_builds_make_a_quiet_tick (controller 600)
           (world 0 [b3_failed; b1_complete] []) [b3_failed; b1_complete]
           (world 0 [b3_failed; b1_complete] []) eq_refl Hterminal).
Defined.

Lemma updates_come_from_listed_builds_witness :
  In b1_pending
     (updatesOf (calls (syncBuilds (controller 600) [b3_failed; b1_new]
                          (world 0 [b3_failed; b1_new] []))))
  /\ exists build,
       In build [b3_failed; b1_new]
       /\ ID b1_pending = ID build
       /\ Status b1_pending <> Status build.
Proof.
  assert (Hwritten :
    In b1_pending
       (updatesOf (calls (syncBuilds (controller 600) [b3_failed; b1_new]
                            (world 0 [b3_failed; b1_new] [])))))
    by (vm_compute; left; reflexivity).
  split; [exact Hwritten |].
  destruct (updates_come_from_listed_builds (controller 600)
              [b3_failed; b1_new] (world 0 [b3_failed; b1_new] [])
              b1_pending Hwritten)
    as (build & Hin & Hid & _ & _ & _ & Hne & _).
  exists build. split; [exact Hin |]. split; [exact Hid | exact Hne].
Defined.

Lemma timeout_is_monotone_witness :
  seconds 601 <= seconds 3600
  /\ 60 <= 600
  /\ hasTimeoutElapsed (seconds 601) b1_running 600 = true
  /\ hasTimeoutElapsed (seconds 3600) b1_running 60 = true.
Proof.
  assert (Hnow : seconds 601 <= seconds 3600) by (vm_compute; discriminate).
  assert (Hlimit : 60 <= 600) by lia.
  assert (Hlate : hasTimeoutElapsed (seconds 601) b1_running 600 = true)
    by (vm_compute; reflexivity).
  split; [exact Hnow |]. split; [exact Hlimit |]. split; [exact Hlate |].
  exact (timeout_is_monotone (seconds 601) (seconds 3600) b1_running 600 60
           Hnow Hlimit Hlate).
Defined.


Lemma conflict_is_a_substring_test_witness :
  Status b1_pending = BuildPending
  /\ CreatePod (kubeClient (controller 600)) (pod "build-T-b1" PodWaiting ∅)
       (world 0 [b1_pending] [runningPod])
     = (Err (alreadyExists "build-T-b1"), world 0 [b1_pending] [runningPod])
  /\ (exists pre post,
        Error (alreadyExists "build-T-b1") = pre +:+ "already exists" +:+ post)
  /\ nextStatusOf (controller 600) b1_pending
       (world 0 [b1_pending] [runningPod]) = BuildPending.
Proof.
  assert (Hphrase : exists pre post,
            Error (alreadyExists "build-T-b1")
            = pre +:+ "already exists" +:+ post)
    by (exists "pod build-T-b1 ", ""; reflexivity).
  split; [reflexivity |]. split; [reflexivity |]. split; [exact Hphrase |].
  destruct (conflict_is_a_substring_test (controller 600) b1_pending
              (world 0 [b1_pending] [runningPod]) strategy
              (pod "build-T-b1" PodWaiting ∅) (alreadyExists "build-T-b1")
              (world 0 [b1_pending] [runningPod])
              eq_refl eq_refl eq_refl eq_refl) as (Hstay & _).
  apply Hstay. exact Hphrase.
Defined.

(** *** The storage adapters on the in-memory registries *)

Lemma project_create_stores_prepared_project_witness :
  exists work,
    project.Create (project.NewREST FakeStorage.projectRegistry)
      (project.ProjectObject FakeStorage.frontend) (FakeStorage.empty (seconds 7))
    = (Some work, None)
    /\ project.Namespace
         (project.prepared FakeStorage.frontend
            (Now (FakeStorage.empty (seconds 7)))) = "frontend"
    /\ (work (FakeStorage.empty (seconds 9))).1.1
       = (Some (project.ProjectObject
                  (project.prepared FakeStorage.frontend (seconds 7))), None).
Proof.
  eexists. split; [reflexivity |].
  match goal with
  | |- context [?work (FakeStorage.empty (seconds 9))] =>
      destruct (project_create_stores_prepared_project
                  (project.NewREST FakeStorage.projectRegistry)
                  FakeStorage.frontend (FakeStorage.empty (seconds 7)) work
                  eq_refl) as (_ & _ & Hdefault & _ & _ & Hwork)
  end.
  split; [exact (Hdefault eq_refl) |].
  rewrite Hwork. vm_compute. reflexivity.
Defined.

Lemma authorization_create_names_the_authorization_witness :
  exists work,
    clientauthorization.Create
      (clientauthorization.NewREST FakeStorage.authorizationRegistry)
      (clientauthorization.ClientAuthorizationObject FakeStorage.grant)
      (FakeStorage.empty (seconds 7))
    = (Some work, None)
    /\ exists stored,
         clientauthorization.ID stored = "alice:console"
         /\ clientauthorization.CreationTimestamp stored = seconds 7
         /\ clientauthorization.UserUID stored = "1000".
Proof.
  eexists. split; [reflexivity |].
  destruct (authorization_create_names_the_authorization
              (clientauthorization.NewREST FakeStorage.authorizationRegistry)
              FakeStorage.grant (FakeStorage.empty (seconds 7)) _ eq_refl)
    as (stored & Hid & Hts & _ & _ & Huid & _).
  exists stored. split; [exact Hid |]. split; [exact Hts | exact Huid].
Defined.

End Scenarios.
